(** * The client agent of [udup/client/client.go]: node lifecycle and
      allocation reconciliation

    A shallow embedding of the client: its data ([structs]), the operating
    system and the servers it talks to (their answers are passed in), the
    boot sequence ([NewClient]) and the bodies of the long-lived loops
    ([registerAndHeartbeat], [watchAllocations], [runAllocs], [allocSync]).
    Goroutine launches, log lines, RPCs and runner calls are recorded in a
    trace so that statements can count them. *)

From stdpp Require Import gmap strings list fin_maps.
From Stdlib Require Import ZArith NArith Lia Sorted.

Local Open Scope Z_scope.
Local Open Scope string_scope.
Local Open Scope list_scope.

(** ** Data: [udup/server/structs] as used by the client *)

Module structs.

(** [structs.Port]; [reservePorts] builds [Port{Value: portVal}]. *)
Record Port := mkPort { Label : string; Value : Z }.

(** [structs.NetworkResource]: the fields [reservePorts] touches, and the
    device name. *)
Record NetworkResource := mkNetworkResource {
  Device : string;
  IP : string;
  MBits : Z;
  ReservedPorts : list Port;
}.

(** [structs.Resources]: the client reads [Networks] only. *)
Record Resources := mkResources { Networks : list NetworkResource }.

(** [structs.Node]. [Resources] and [Reserved] are pointers and the three
    maps can be nil: [None] is nil. *)
Record Node := mkNode {
  Node_ID : string;
  Datacenter : string;
  Name : string;
  Attributes : option (gmap string string);
  Links : option (gmap string string);
  Meta : option (gmap string string);
  Node_Resources : option Resources;
  Reserved : option Resources;
  Status : string;
}.

(** [&structs.Node{}] *)
Definition zeroNode : Node :=
  {| Node_ID := ""; Datacenter := ""; Name := ""; Attributes := None;
     Links := None; Meta := None; Node_Resources := None; Reserved := None;
     Status := "" |}.

(** Modelled from the spec: the node-status constants are declared outside
    the sources; section 6 of the specification names the values. *)
Definition NodeStatusInit : string := "init".
Definition NodeStatusReady : string := "ready".

(** Modelled from the spec: the declaration of [structs.Allocation] is
    not among the sources. The record has the fields [client.go] names
    (ID, NodeID, TaskStates, ClientStatus, ClientDescription,
    PreviousAllocation) and, for the rest, what section 3 of the
    specification lists: the server's modify index and an opaque payload
    (a pointer, [None] being nil). [TaskStates] is a map, [None] being the
    nil map. *)
Record Allocation := mkAllocation {
  ID : string;
  NodeID : string;
  TaskStates : option (gmap string string);
  ClientStatus : string;
  ClientDescription : string;
  PreviousAllocation : string;
  AllocModifyIndex : N;
  Payload : option string;
}.

(** The zero value [new(structs.Allocation)] points to. *)
Definition zeroAllocation : Allocation :=
  {| ID := ""; NodeID := ""; TaskStates := None; ClientStatus := "";
     ClientDescription := ""; PreviousAllocation := "";
     AllocModifyIndex := 0%N; Payload := None |}.

(** [&structs.Allocation{ID: id}] *)
Definition allocationWithID (id : string) : Allocation :=
  {| ID := id; NodeID := ""; TaskStates := None; ClientStatus := "";
     ClientDescription := ""; PreviousAllocation := "";
     AllocModifyIndex := 0%N; Payload := None |}.

#[global] Instance Port_eq_dec : EqDecision Port.
Proof. solve_decision. Defined.

#[global] Instance NetworkResource_eq_dec : EqDecision NetworkResource.
Proof. solve_decision. Defined.

#[global] Instance Allocation_eq_dec : EqDecision Allocation.
Proof. solve_decision. Defined.

End structs.
Import structs.

(** ** Errors

    [error] values as the boot path builds them: a message, a
    [multierror.Error] holding the collected messages, or
    [fmt.Errorf(prefix + "%v", cause)]. The loops only look at the text of
    an RPC error, which is a [string] there. *)
Inductive error :=
| errorString (msg : string)
| multiError (errs : list string)
| wrapError (prefix : string) (cause : error).

(** [mErr.ErrorOrNil()] *)
Definition ErrorOrNil (errs : list string) : option error :=
  match errs with
  | [] => None
  | _ => Some (multiError errs)
  end.

(** [strings.Contains(s, substr)] *)
Fixpoint Contains (s substr : string) : bool :=
  String.prefix substr s ||
  match s with
  | EmptyString => false
  | String _ s' => Contains s' substr
  end.

(** ** Durations, in nanoseconds ([time.Duration]) *)

Definition Millisecond : Z := 1000000.
Definition Second : Z := 1000 * Millisecond.

Definition registerRetryIntv : Z := 15 * Second.
Definition getAllocRetryIntv : Z := 30 * Second.
Definition devModeRetryIntv : Z := Second.
Definition initialHeartbeatStagger : Z := 10 * Second.
Definition nodeUpdateRetryIntv : Z := 5 * Second.
Definition allocSyncIntv : Z := 200 * Millisecond.
Definition allocSyncRetryIntv : Z := 5 * Second.

(** [lib.RandomStagger(intv)] of hashicorp/consul:
    [time.Duration(uint64(rand.Int63()) % uint64(intv))]. The draw of
    [rand.Int63()] is the argument [r]. *)
Definition RandomStagger (intv : Z) (r : Z) : Z := r `mod` intv.

(** [retryIntv] *)
Definition retryIntv (devMode : bool) (base : Z) (r : Z) : Z :=
  if devMode then devModeRetryIntv else base + RandomStagger base r.

(** ** The alloc index, the blocked index and the trace *)

(** What the client asks of an Alloc Runner; the runner itself is outside
    this file. [alloc] is the allocation the runner currently holds
    ([ar.alloc], [ar.Alloc()]). *)
Record AllocRunner := mkAllocRunner { alloc : Allocation }.

(** [NewAllocRunner(c.logger, c.configCopy, c.updateAllocStatus, alloc)] *)
Definition NewAllocRunner (a : Allocation) : AllocRunner := {| alloc := a |}.

Inductive Event :=
| EvNewAllocRunner (a : Allocation)       (* the factory was called *)
| EvRun (id : string)                     (* go ar.Run() *)
| EvRestoreState (id : string)            (* ar.RestoreState() *)
| EvDestroy (id : string)                 (* ar.Destroy() *)
| EvUpdate (id : string) (a : Allocation) (* ar.Update(a) *)
| EvSaveState                             (* c.saveState() *)
| EvLog (level : string) (msg : string)   (* c.logger.Printf *)
| EvFingerprint (name : string)           (* f.Fingerprint(config, node) *)
| EvFingerprintPeriodic (name : string) (period : Z)
| EvRPC (method : string) (batch : list Allocation)
| EvRetryRegisterNode                     (* c.retryRegisterNode() entered *)
| EvGo (loop : string).                   (* a long-lived goroutine started *)

#[global] Instance Event_eq_dec : EqDecision Event.
Proof. solve_decision. Defined.

(** The part of [Client] the reconciler and the sync loop share.
    [node] is [c.config.Node] (non-nil once [setupNode] has run). *)
Record Client := mkClient {
  DevMode : bool;
  node : Node;
  allocs : gmap string AllocRunner;
  blockedAllocations : gmap string Allocation;
  trace : list Event;
}.

Definition set_allocs (c : Client) (m : gmap string AllocRunner) : Client :=
  {| DevMode := DevMode c; node := node c; allocs := m;
     blockedAllocations := blockedAllocations c; trace := trace c |}.

Definition set_blocked (c : Client) (m : gmap string Allocation) : Client :=
  {| DevMode := DevMode c; node := node c; allocs := allocs c;
     blockedAllocations := m; trace := trace c |}.

Definition emit (c : Client) (evs : list Event) : Client :=
  {| DevMode := DevMode c; node := node c; allocs := allocs c;
     blockedAllocations := blockedAllocations c; trace := trace c ++ evs |}.

(** How many times an event occurs in a trace. *)
Definition occurrences (e : Event) (tr : list Event) : nat :=
  length (filter (λ e', e' = e) tr).

(** ** The reconciler ([runAllocs]) and the sync loop ([allocSync]) *)

Section Reconciler.

(** The method [Terminated] of [structs.Allocation], declared outside the
    sources. *)
Variable Terminated : Allocation → bool.

(** [addAlloc]: it always returns nil. *)
Definition addAlloc (c : Client) (a : Allocation) : Client :=
  let ar := NewAllocRunner a in
  let c := emit c [EvNewAllocRunner a; EvRun (ID a)] in
  set_allocs c (<[ID a := ar]> (allocs c)).

(** [removeAlloc] *)
Definition removeAlloc (c : Client) (a : Allocation) : Client :=
  match allocs c !! ID a with
  | None => emit c [EvLog "WARN" "missing context for alloc"]
  | Some _ =>
      let c := set_allocs c (delete (ID a) (allocs c)) in
      emit c [EvDestroy (ID a)]
  end.

(** [updateAlloc] *)
Definition updateAlloc (c : Client) (exist update : Allocation) : Client :=
  match allocs c !! ID exist with
  | None => emit c [EvLog "WARN" "missing context for alloc"]
  | Some _ => emit c [EvUpdate (ID exist) update]
  end.

(** The body of the loop over [diff.added] in [runAllocs]: the chain guard,
    then [addAlloc]. [getAllocRunners()] is a copy of [c.allocs]. *)
Definition startAlloc (c : Client) (add : Allocation) : Client :=
  match allocs c !! PreviousAllocation add with
  | Some ar =>
      if negb (Terminated (alloc ar)) then
        let c := emit c [EvLog "DEBUG" "added alloc to blocked queue"] in
        set_blocked c (<[PreviousAllocation add := add]> (blockedAllocations c))
      else addAlloc c add
  | None => addAlloc c add
  end.

(** The result of [diffAllocs(exist, update)]; [diffAllocs] itself is not
    among the sources. *)
Record diffResult := mkDiff {
  added : list Allocation;
  removed : list Allocation;
  updated : list (Allocation * Allocation);  (* exist, updated *)
}.

(** [runAllocs], from the diff on. *)
Definition runAllocs (c : Client) (diff : diffResult) : Client :=
  let c := foldl removeAlloc c (removed diff) in
  let c := foldl (λ c u, updateAlloc c u.1 u.2) c (updated diff) in
  let c := foldl startAlloc c (added diff) in
  emit c [EvSaveState].

(** The locals of [allocSync]: [staggered], the period of [syncTicker] and
    the pending [updates]. *)
Record syncState := mkSync {
  staggered : bool;
  syncTicker : Z;
  updates : gmap string Allocation;
}.

Definition allocSync_start : syncState :=
  {| staggered := false; syncTicker := allocSyncIntv; updates := ∅ |}.

(** [case alloc := <-c.allocUpdates]: batch the message, then release the
    allocation it was blocking, under [blockedAllocsLock]. *)
Definition allocSync_recv (s : syncState * Client) (a : Allocation)
  : syncState * Client :=
  let st := {| staggered := staggered s.1; syncTicker := syncTicker s.1;
               updates := <[ID a := a]> (updates s.1) |} in
  let c := s.2 in
  match blockedAllocations c !! ID a with
  | Some blockedAlloc =>
      if Terminated a then
        let c := addAlloc c blockedAlloc in
        (st, set_blocked c (delete (PreviousAllocation blockedAlloc)
                                   (blockedAllocations c)))
      else (st, c)
  | None => (st, c)
  end.

(** [case <-syncTicker.C]. [rpcErr] is what
    [c.RPC("Node.UpdateAlloc", &args, &resp)] returns for the batch and [r]
    the random draw of [retryIntv]. The batch lists the values of the map in
    the order the map yields them. *)
Definition allocSync_tick (rpcErr : list Allocation → option string) (r : Z)
    (s : syncState * Client) : syncState * Client :=
  let st := s.1 in
  let c := s.2 in
  if (size (updates st) =? 0)%nat then (st, c)
  else
    let sync := (map_to_list (updates st)).*2 in
    let c := emit c [EvRPC "Node.UpdateAlloc" sync] in
    match rpcErr sync with
    | Some e =>
        ({| staggered := true;
            syncTicker := retryIntv (DevMode c) allocSyncRetryIntv r;
            updates := updates st |},
         emit c [EvLog "ERR" ("failed to update allocations: " +:+ e)])
    | None =>
        ({| staggered := false;
            syncTicker := if staggered st then allocSyncIntv else syncTicker st;
            updates := ∅ |}, c)
    end.

(** What the [select] of [allocSync] can receive. *)
Inductive syncInput :=
| SyncShutdown
| SyncUpdate (a : Allocation)
| SyncTick (rpcErr : list Allocation → option string) (r : Z).

(** [allocSync] over the inputs it receives, up to the shutdown. *)
Fixpoint allocSync (inputs : list syncInput) (s : syncState * Client)
  : syncState * Client :=
  match inputs with
  | [] => s
  | SyncShutdown :: _ => s
  | SyncUpdate a :: rest => allocSync rest (allocSync_recv s a)
  | SyncTick rpcErr r :: rest => allocSync rest (allocSync_tick rpcErr r s)
  end.

(** The status updates [allocSync] takes from the channel before it shuts
    down. *)
Fixpoint received (inputs : list syncInput) : list Allocation :=
  match inputs with
  | [] => []
  | SyncShutdown :: _ => []
  | SyncUpdate a :: rest => a :: received rest
  | SyncTick _ _ :: rest => received rest
  end.

End Reconciler.

(** ** [updateAllocStatus]: allocations behind pointers

    [h] is the store of [*structs.Allocation] objects, [ch] the queue of
    [c.allocUpdates]. [shutdownWins] says which case of the [select] is
    taken. Dereferencing a pointer that is not in the store is a nil
    dereference: the result is [None]. *)

Definition updateAllocStatus (c : Client) (h : gmap positive Allocation)
    (ch : list positive) (shutdownWins : bool) (p : positive)
  : option (gmap positive Allocation * list positive) :=
  a ← h !! p;
  let stripped : positive := fresh (dom h) in     (* new(structs.Allocation) *)
  let s := zeroAllocation in
  let s := {| ID := ID a; NodeID := NodeID s; TaskStates := TaskStates s;
              ClientStatus := ClientStatus s;
              ClientDescription := ClientDescription s;
              PreviousAllocation := PreviousAllocation s;
              AllocModifyIndex := AllocModifyIndex s; Payload := Payload s |} in
  let s := {| ID := ID s; NodeID := Node_ID (node c);
              TaskStates := TaskStates s; ClientStatus := ClientStatus s;
              ClientDescription := ClientDescription s;
              PreviousAllocation := PreviousAllocation s;
              AllocModifyIndex := AllocModifyIndex s; Payload := Payload s |} in
  let s := {| ID := ID s; NodeID := NodeID s; TaskStates := TaskStates a;
              ClientStatus := ClientStatus s;
              ClientDescription := ClientDescription s;
              PreviousAllocation := PreviousAllocation s;
              AllocModifyIndex := AllocModifyIndex s; Payload := Payload s |} in
  let s := {| ID := ID s; NodeID := NodeID s; TaskStates := TaskStates s;
              ClientStatus := ClientStatus a;
              ClientDescription := ClientDescription s;
              PreviousAllocation := PreviousAllocation s;
              AllocModifyIndex := AllocModifyIndex s; Payload := Payload s |} in
  let s := {| ID := ID s; NodeID := NodeID s; TaskStates := TaskStates s;
              ClientStatus := ClientStatus s;
              ClientDescription := ClientDescription a;
              PreviousAllocation := PreviousAllocation s;
              AllocModifyIndex := AllocModifyIndex s; Payload := Payload s |} in
  Some (<[stripped := s]> h, if shutdownWins then ch else ch ++ [stripped]).

(** ** The allocation watcher ([watchAllocations]) *)

(** [structs.NodeClientAllocsResponse] *)
Record NodeClientAllocsResponse := mkClientAllocs {
  resp_Allocs : gmap string N;
  resp_Index : N;
}.

(** [allocUpdates] *)
Record allocUpdates := mkAllocUpdates {
  pulled : gmap string Allocation;
  filtered : gset string;
}.

(** What one iteration of the loop meets: the servers' answers, the state of
    [shutdownCh] at each [select], the random draw and the runners. *)
Record watchEnv := mkWatchEnv {
  getClientAllocs : N → NodeClientAllocsResponse + string;
  getAllocs : list string → list Allocation + string;
  shutdownInRetry : bool;     (* shutdownCh wins over time.After(retry) *)
  shutdownAfterGet : bool;    (* the check after Node.GetClientAllocs *)
  shutdownAfterPull : bool;   (* the check after Alloc.GetAllocs *)
  shutdownInSend : bool;      (* shutdownCh wins over updates <- update *)
  draw : Z;
  runners : gmap string AllocRunner;   (* c.getAllocRunners() *)
}.

Inductive watchOutcome :=
| WatchRetry (after : Z)       (* continue, after the backoff *)
| WatchReturn                  (* return: shutdown *)
| WatchSent (u : allocUpdates). (* the update was pushed *)

Section Watcher.

(** The method [shouldUpdate] of [AllocRunner], declared outside the
    sources. *)
Variable shouldUpdate : AllocRunner → N → bool.

Definition needsPull (rs : gmap string AllocRunner) (e : string * N) : bool :=
  match rs !! e.1 with
  | None => true
  | Some runner => shouldUpdate runner e.2
  end.

(** The allocations to pull and those filtered out, for a response of
    [Node.GetClientAllocs]. *)
Definition pullSet (rs : gmap string AllocRunner)
    (resp : NodeClientAllocsResponse) : list string :=
  (filter (λ e, needsPull rs e) (map_to_list (resp_Allocs resp))).*1.

Definition filteredSet (rs : gmap string AllocRunner)
    (resp : NodeClientAllocsResponse) : gset string :=
  list_to_set
    (filter (λ e, ¬ needsPull rs e) (map_to_list (resp_Allocs resp))).*1.

(** One iteration of the [for] of [watchAllocations]: the new value of
    [req.MinQueryIndex] and how the iteration ends. *)
Definition watchAllocations_iter (devMode : bool) (env : watchEnv)
    (MinQueryIndex : N) : N * watchOutcome :=
  let backoff :=
    if shutdownInRetry env then WatchReturn
    else WatchRetry (retryIntv devMode getAllocRetryIntv (draw env)) in
  match getClientAllocs env MinQueryIndex with
  | inr _ => (MinQueryIndex, backoff)
  | inl resp =>
      if shutdownAfterGet env then (MinQueryIndex, WatchReturn)
      else
        let pull := pullSet (runners env) resp in
        let filtered := filteredSet (runners env) resp in
        let finish (allocsResp : list Allocation) :=
          let MinQueryIndex :=
            if (MinQueryIndex <? resp_Index resp)%N then resp_Index resp
            else MinQueryIndex in
          let pulled :=
            foldl (λ m a, <[ID a := a]> m) (∅ : gmap string Allocation)
                  allocsResp in
          let update := {| pulled := pulled; filtered := filtered |} in
          (MinQueryIndex,
           if shutdownInSend env then WatchReturn else WatchSent update) in
        if (length pull =? 0)%nat then finish []
        else
          match getAllocs env pull with
          | inr _ => (MinQueryIndex, backoff)
          | inl allocsResp =>
              if shutdownAfterPull env then (MinQueryIndex, WatchReturn)
              else finish allocsResp
          end
  end.

(** [watchAllocations] over the iterations [envs]: the values
    [req.MinQueryIndex] has at the end of each iteration. The loop stops at
    a shutdown. *)
Fixpoint watchAllocations (devMode : bool) (envs : list watchEnv)
    (MinQueryIndex : N) : list N :=
  match envs with
  | [] => []
  | env :: rest =>
      let r := watchAllocations_iter devMode env MinQueryIndex in
      r.1 :: match r.2 with
             | WatchReturn => []
             | _ => watchAllocations devMode rest r.1
             end
  end.

End Watcher.

(** ** Registration and heartbeat ([registerAndHeartbeat]) *)

(** The heartbeat fields of [Client], the node status, and the delay of the
    pending [time.After] the loop waits on. *)
Record heartbeatState := mkHeartbeat {
  hb_Status : string;
  heartbeatTTL : Z;
  lastHeartbeatFromQuorum : bool;
  heartbeat : Z;
  hb_trace : list Event;
}.

Definition hb_emit (st : heartbeatState) (evs : list Event) : heartbeatState :=
  {| hb_Status := hb_Status st; heartbeatTTL := heartbeatTTL st;
     lastHeartbeatFromQuorum := lastHeartbeatFromQuorum st;
     heartbeat := heartbeat st; hb_trace := hb_trace st ++ evs |}.

Definition set_heartbeat (st : heartbeatState) (d : Z) : heartbeatState :=
  {| hb_Status := hb_Status st; heartbeatTTL := heartbeatTTL st;
     lastHeartbeatFromQuorum := lastHeartbeatFromQuorum st;
     heartbeat := d; hb_trace := hb_trace st |}.

(** What the servers answer to [Node.Register]. *)
Inductive registerAnswer :=
| RegisterOK (HeartbeatTTL : Z)
| RegisterErr (msg : string).

(** One round of the loop of [retryRegisterNode]: the answer, whether the
    grace period is over, and whether [shutdownCh] wins the [select] that
    follows a failure. *)
Record registerAttempt := mkAttempt {
  reg_answer : registerAnswer;
  reg_afterGrace : bool;
  reg_shutdown : bool;
}.

(** [registerNode] *)
Definition registerNode (att : registerAttempt) (st : heartbeatState)
  : heartbeatState * option string :=
  let st := hb_emit st [EvRPC "Node.Register" []] in
  match reg_answer att with
  | RegisterErr e =>
      (st, Some (if reg_afterGrace att
                 then "failed to register node: " +:+ e else e))
  | RegisterOK ttl =>
      ({| hb_Status := NodeStatusReady; heartbeatTTL := ttl;
          lastHeartbeatFromQuorum := lastHeartbeatFromQuorum st;
          heartbeat := heartbeat st;
          hb_trace := hb_trace st ++
                      [EvLog "DEBUG" "node registration complete"] |},
       None)
  end.

(** The [for] of [retryRegisterNode], over the rounds the servers and the
    shutdown channel allow. [None]: the rounds listed do not end the loop. *)
Fixpoint registerLoop (attempts : list registerAttempt) (st : heartbeatState)
  : option (heartbeatState * list registerAttempt) :=
  match attempts with
  | [] => None
  | att :: rest =>
      match registerNode att st with
      | (st, None) => Some (st, rest)
      | (st, Some e) =>
          let st := hb_emit st [EvLog "ERR" e] in
          if reg_shutdown att then Some (st, rest) else registerLoop rest st
      end
  end.

(** [retryRegisterNode] *)
Definition retryRegisterNode (attempts : list registerAttempt)
    (st : heartbeatState) : option (heartbeatState * list registerAttempt) :=
  registerLoop attempts (hb_emit st [EvRetryRegisterNode]).

(** What [c.RPC("Node.UpdateStatus", ...)] and then
    [c.rpcProxy.RefreshServerLists] return. *)
Inductive statusAnswer :=
| StatusErr (msg : string)
| StatusOK (HeartbeatTTL : Z) (refreshErr : option string)
           (LeaderRPCAddr : string).

(** [updateNodeStatus] *)
Definition updateNodeStatus (ans : statusAnswer) (st : heartbeatState)
  : heartbeatState * option string :=
  let st := hb_emit st [EvRPC "Node.UpdateStatus" []] in
  match ans with
  | StatusErr e => (st, Some ("failed to update status: " +:+ e))
  | StatusOK ttl refreshErr leader =>
      let quorum q := {| hb_Status := hb_Status st; heartbeatTTL := ttl;
                         lastHeartbeatFromQuorum := q;
                         heartbeat := heartbeat st;
                         hb_trace := hb_trace st |} in
      match refreshErr with
      | Some e => (quorum (lastHeartbeatFromQuorum st), Some e)
      | None =>
          if bool_decide (leader = "") then (quorum false, None)
          else (quorum true, None)
      end
  end.

(** [case <-heartbeat] of [registerAndHeartbeat]. [r] is the random draw. *)
Definition heartbeat_fire (devMode : bool) (ans : statusAnswer) (r : Z)
    (attempts : list registerAttempt) (st : heartbeatState)
  : option (heartbeatState * list registerAttempt) :=
  match updateNodeStatus ans st with
  | (st, Some err) =>
      if Contains err "node not found" then
        let st := hb_emit st [EvLog "INFO" "re-registering node"] in
        '(st, attempts) ← retryRegisterNode attempts st;
        Some (set_heartbeat st (RandomStagger initialHeartbeatStagger r),
              attempts)
      else
        let intv := retryIntv devMode registerRetryIntv r in
        let st := hb_emit st [EvLog "ERR" ("heartbeating failed: " +:+ err)] in
        Some (set_heartbeat st intv, attempts)
  | (st, None) => Some (set_heartbeat st (heartbeatTTL st), attempts)
  end.

(** What the [select] of [registerAndHeartbeat] can receive. *)
Inductive heartbeatInput :=
| HbShutdown
| HbFire (ans : statusAnswer) (r : Z).

Fixpoint heartbeatLoop (devMode : bool) (inputs : list heartbeatInput)
    (attempts : list registerAttempt) (st : heartbeatState)
  : option heartbeatState :=
  match inputs with
  | [] => Some st
  | HbShutdown :: _ => Some st
  | HbFire ans r :: rest =>
      '(st, attempts) ← heartbeat_fire devMode ans r attempts st;
      heartbeatLoop devMode rest attempts st
  end.

(** [registerAndHeartbeat]: [r0] is the draw of the initial stagger. *)
Definition registerAndHeartbeat (devMode : bool) (r0 : Z)
    (inputs : list heartbeatInput) (attempts : list registerAttempt)
    (st : heartbeatState) : option heartbeatState :=
  '(st, attempts) ← retryRegisterNode attempts st;
  let st := hb_emit st [EvGo "watchNodeUpdates"] in
  let st := set_heartbeat st
    (if devMode then 0 else RandomStagger initialHeartbeatStagger r0) in
  heartbeatLoop devMode inputs attempts st.

(** ** The file system *)

Inductive ioError :=
| NotExist               (* os.IsNotExist(err) *)
| IOError (msg : string).

(** Files (contents and mode), directories (mode and entry names), and the
    paths at which any operation fails with an error of its own. *)
Record FS := mkFS {
  fs_files : gmap string (string * Z);
  fs_dirs : gmap string (Z * list string);
  fs_fault : string → option string;
}.

(** [ioutil.ReadFile] *)
Definition ReadFile (fs : FS) (path : string) : string * option ioError :=
  match fs_fault fs path with
  | Some e => ("", Some (IOError e))
  | None =>
      match fs_files fs !! path with
      | Some (data, _) => (data, None)
      | None => ("", Some NotExist)
      end
  end.

(** [ioutil.WriteFile]: creates the file with [perm] or truncates the one
    that exists. *)
Definition WriteFile (fs : FS) (path data : string) (perm : Z)
  : FS * option string :=
  match fs_fault fs path with
  | Some e => (fs, Some e)
  | None =>
      let mode := match fs_files fs !! path with
                  | Some (_, m) => m
                  | None => perm
                  end in
      ({| fs_files := <[path := (data, mode)]> (fs_files fs);
          fs_dirs := fs_dirs fs; fs_fault := fs_fault fs |}, None)
  end.

(** [os.MkdirAll] *)
Definition MkdirAll (fs : FS) (path : string) (perm : Z) : FS * option string :=
  match fs_fault fs path with
  | Some e => (fs, Some e)
  | None =>
      match fs_dirs fs !! path with
      | Some _ => (fs, None)
      | None =>
          ({| fs_files := fs_files fs;
              fs_dirs := <[path := (perm, [])]> (fs_dirs fs);
              fs_fault := fs_fault fs |}, None)
      end
  end.

(** [ioutil.TempDir("", prefix)]; [name] is the path the system picks. *)
Definition TempDir (fs : FS) (name : string) : FS * (string * option string) :=
  match MkdirAll fs name 448 with
  | (fs, Some e) => (fs, ("", Some e))
  | (fs, None) => (fs, (name, None))
  end.

(** [ioutil.ReadDir] *)
Definition ReadDir (fs : FS) (path : string) : list string * option ioError :=
  match fs_fault fs path with
  | Some e => ([], Some (IOError e))
  | None =>
      match fs_dirs fs !! path with
      | Some (_, entries) => (entries, None)
      | None => ([], Some NotExist)
      end
  end.

(** [filepath.Join(dir, name)] for a non-empty [dir] that needs no
    cleaning. *)
Definition filepath_Join (dir name : string) : string := dir +:+ "/" +:+ name.

(** ** Boot: [init], [nodeID], [setupNode] *)

(** [config.Config]: what the client reads. [fingerprint_whitelist] is
    [ReadStringListToMap("fingerprint.whitelist")]. *)
Record Config := mkConfig {
  cfg_DevMode : bool;
  StateDir : string;
  AllocDir : string;
  Region : string;
  cfg_Node : option Node;
  GloballyReservedPorts : list Z;
  fingerprint_whitelist : gset string;
}.

Definition set_Node (cfg : Config) (n : Node) : Config :=
  {| cfg_DevMode := cfg_DevMode cfg; StateDir := StateDir cfg;
     AllocDir := AllocDir cfg; Region := Region cfg; cfg_Node := Some n;
     GloballyReservedPorts := GloballyReservedPorts cfg;
     fingerprint_whitelist := fingerprint_whitelist cfg |}.

(** What the machine supplies at boot: the names of the temporary
    directories, the host name and the UUID [structs.GenerateUUID()]
    returns. *)
Record bootEnv := mkBootEnv {
  tmpStateDir : string;
  tmpAllocDir : string;
  hostname : string;
  uuid : string;
}.

(** [init] *)
Definition init (env : bootEnv) (cfg : Config) (fs : FS)
  : Config * FS * option error :=
  let state :=
    if negb (bool_decide (StateDir cfg = "")) then
      match MkdirAll fs (StateDir cfg) 448 with
      | (fs, Some e) =>
          (cfg, fs, Some (wrapError "failed creating state dir: " (errorString e)))
      | (fs, None) => (cfg, fs, None)
      end
    else
      match TempDir fs (tmpStateDir env) with
      | (fs, (_, Some e)) =>
          (cfg, fs,
           Some (wrapError
                   "failed creating temporary directory for the StateDir: "
                   (errorString e)))
      | (fs, (p, None)) =>
          ({| cfg_DevMode := cfg_DevMode cfg; StateDir := p;
              AllocDir := AllocDir cfg; Region := Region cfg;
              cfg_Node := cfg_Node cfg;
              GloballyReservedPorts := GloballyReservedPorts cfg;
              fingerprint_whitelist := fingerprint_whitelist cfg |}, fs, None)
      end in
  match state with
  | (cfg, fs, Some err) => (cfg, fs, Some err)
  | (cfg, fs, None) =>
      if negb (bool_decide (AllocDir cfg = "")) then
        match MkdirAll fs (AllocDir cfg) 493 with
        | (fs, Some e) =>
            (cfg, fs,
             Some (wrapError "failed creating alloc dir: " (errorString e)))
        | (fs, None) => (cfg, fs, None)
        end
      else
        match TempDir fs (tmpAllocDir env) with
        | (fs, (_, Some e)) =>
            (cfg, fs,
             Some (wrapError
                     "failed creating temporary directory for the AllocDir: "
                     (errorString e)))
        | (fs, (p, None)) =>
            ({| cfg_DevMode := cfg_DevMode cfg; StateDir := StateDir cfg;
                AllocDir := p; Region := Region cfg;
                cfg_Node := cfg_Node cfg;
                GloballyReservedPorts := GloballyReservedPorts cfg;
                fingerprint_whitelist := fingerprint_whitelist cfg |}, fs, None)
        end
  end.

(** [nodeID]: the file system afterwards and the pair [(id, err)].
    [generated] is what [structs.GenerateUUID()] returns. *)
Definition nodeID (devMode : bool) (stateDir : string) (generated : string)
    (fs : FS) : FS * (string * option error) :=
  if devMode then (fs, (generated, None))
  else
    let idPath := filepath_Join stateDir "client-id" in
    match ReadFile fs idPath with
    | (_, Some (IOError e)) => (fs, ("", Some (errorString e)))
    | (idBuf, _) =>
        if negb (String.length idBuf =? 0)%nat then (fs, (idBuf, None))
        else
          let id := generated in
          match WriteFile fs idPath id 448 with
          | (fs, Some e) => (fs, ("", Some (errorString e)))
          | (fs, None) => (fs, (id, None))
          end
    end.

(** [setupNode] *)
Definition setupNode (env : bootEnv) (cfg : Config) (fs : FS)
  : Config * FS * option error :=
  let node := default zeroNode (cfg_Node cfg) in
  match nodeID (cfg_DevMode cfg) (StateDir cfg) (uuid env) fs with
  | (fs, (_, Some err)) =>
      (set_Node cfg node, fs, Some (wrapError "node ID setup failed: " err))
  | (fs, (id, None)) =>
      let name := if bool_decide (Name node = "") then hostname env
                  else Name node in
      let name := if bool_decide (name = "") then id else name in
      (set_Node cfg
         {| Node_ID := id;
            Datacenter := if bool_decide (Datacenter node = "") then "dc1"
                          else Datacenter node;
            Name := name;
            Attributes := Some (default ∅ (Attributes node));
            Links := Some (default ∅ (Links node));
            Meta := Some (default ∅ (Meta node));
            Node_Resources :=
              Some (default {| Networks := [] |} (Node_Resources node));
            Reserved := Some (default {| Networks := [] |} (Reserved node));
            Status := NodeStatusInit |},
       fs, None)
  end.

(** ** Boot: [fingerprint], [reservePorts], [restoreState], [NewClient] *)

(** The interface [fingerprint.Fingerprint]. [Fingerprint] returns the node
    as the call leaves it, [applies] and the error; [None] when the call
    panics. *)
Record Fingerprinter := mkFingerprinter {
  Fingerprint : Config → Node → option (Node * bool * option string);
  Periodic : bool * Z;
}.

(** [ArchFingerprint] with the periodic part of the [StaticFingerprinter]
    it embeds; [GOARCH] is [runtime.GOARCH]. Assigning into a nil map
    panics. *)
Definition ArchFingerprint (GOARCH : string) : Fingerprinter :=
  {| Fingerprint := λ _ n,
       attrs ← Attributes n;
       Some ({| Node_ID := Node_ID n; Datacenter := Datacenter n;
                Name := Name n;
                Attributes := Some (<["arch" := GOARCH]> attrs);
                Links := Links n; Meta := Meta n;
                Node_Resources := Node_Resources n; Reserved := Reserved n;
                Status := Status n |}, true, None);
     Periodic := (false, 0) |}.

(** The locals of [fingerprint] and the node it works on. *)
Record fpState := mkFp {
  fp_node : Node;
  applied : list string;
  skipped : list string;
  fp_trace : list Event;
}.

Inductive fpResult :=
| FpDone                   (* return nil *)
| FpError (err : string)   (* return err *)
| FpPanic.

Section Fingerprint.

(** [fingerprint.BuiltinFingerprints()] and [fingerprint.NewFingerprint],
    declared outside the sources. *)
Variable BuiltinFingerprints : list string.
Variable NewFingerprint : string → Fingerprinter + string.

(** The [for] of [fingerprint]. *)
Fixpoint fingerprintLoop (cfg : Config) (names : list string) (st : fpState)
  : fpState * fpResult :=
  match names with
  | [] => (st, FpDone)
  | name :: rest =>
      let whitelist := fingerprint_whitelist cfg in
      let whitelistEnabled := negb (size whitelist =? 0)%nat in
      if whitelistEnabled && negb (bool_decide (name ∈ whitelist)) then
        fingerprintLoop cfg rest
          {| fp_node := fp_node st; applied := applied st;
             skipped := skipped st ++ [name]; fp_trace := fp_trace st |}
      else
        match NewFingerprint name with
        | inr err => (st, FpError err)
        | inl f =>
            let tr := fp_trace st ++ [EvFingerprint name] in
            match Fingerprint f cfg (fp_node st) with
            | None =>
                ({| fp_node := fp_node st; applied := applied st;
                    skipped := skipped st; fp_trace := tr |}, FpPanic)
            | Some (n, _, Some err) =>
                ({| fp_node := n; applied := applied st;
                    skipped := skipped st; fp_trace := tr |}, FpError err)
            | Some (n, applies, None) =>
                fingerprintLoop cfg rest
                  {| fp_node := n;
                     applied := if applies then applied st ++ [name]
                                else applied st;
                     skipped := skipped st;
                     fp_trace := if (Periodic f).1
                       then tr ++ [EvFingerprintPeriodic name (Periodic f).2]
                       else tr |}
            end
        end
  end.

(** [fingerprint] *)
Definition fingerprint (cfg : Config) (n : Node) (tr : list Event)
  : fpState * fpResult :=
  let st := {| fp_node := n; applied := []; skipped := [];
               fp_trace := tr ++ [EvLog "DEBUG" "built-in fingerprints"] |} in
  match fingerprintLoop cfg BuiltinFingerprints st with
  | (st, FpDone) =>
      let tr := fp_trace st ++ [EvLog "DEBUG" "applied fingerprints"] in
      let tr := if negb (length (skipped st) =? 0)%nat
                then tr ++ [EvLog "DEBUG" "fingerprint modules skipped due to whitelist"]
                else tr in
      ({| fp_node := fp_node st; applied := applied st;
          skipped := skipped st; fp_trace := tr |}, FpDone)
  | r => r
  end.

End Fingerprint.

(** [res.ReservedPorts = append(res.ReservedPorts, structs.Port{Value: v})]
    for each [v] of [global]. *)
Definition appendPorts (res : NetworkResource) (global : list Z)
  : NetworkResource :=
  {| Device := Device res; IP := IP res; MBits := MBits res;
     ReservedPorts :=
       ReservedPorts res ++ map (λ v, {| Label := ""; Value := v |}) global |}.

(** [res = net.Copy(); res.MBits = 0] *)
Definition copyWithoutMBits (net : NetworkResource) : NetworkResource :=
  {| Device := Device net; IP := IP net; MBits := 0;
     ReservedPorts := ReservedPorts net |}.

(** The first loop of [reservePorts]: index the reserved networks by IP. *)
Definition indexReserved (reserved : list NetworkResource)
  : gmap string NetworkResource :=
  foldl (λ idx resNet, <[IP resNet := resNet]> idx) ∅ reserved.

(** The body of the second loop: reserve the global ports on the device
    [net]. *)
Definition reserveOn (global : list Z) (idx : gmap string NetworkResource)
    (net : NetworkResource) : gmap string NetworkResource :=
  let res := match idx !! IP net with
             | Some res => res
             | None => copyWithoutMBits net
             end in
  <[IP net := appendPorts res global]> idx.

(** [reservePorts]: the node afterwards; [None] when a nil [Resources] or
    [Reserved] is dereferenced. The reserved networks are restored in the
    order the index yields them. *)
Definition reservePorts (global : list Z) (n : Node) : option Node :=
  if (length global =? 0)%nat then Some n
  else
    resources ← Node_Resources n;
    reserved ← Reserved n;
    let networks := Networks resources in
    let reservedIndex := indexReserved (Networks reserved) in
    let reservedIndex := foldl (reserveOn global) reservedIndex networks in
    Some {| Node_ID := Node_ID n; Datacenter := Datacenter n; Name := Name n;
            Attributes := Attributes n; Links := Links n; Meta := Meta n;
            Node_Resources := Node_Resources n;
            Reserved := Some {| Networks := (map_to_list reservedIndex).*2 |};
            Status := Status n |}.

Section Restore.

(** [ar.RestoreState()] for the runner of the allocation [id]: the
    allocation read back from the disk, or the error. *)
Variable RestoreState : string → Allocation + string.

(** The body of the [for] of [restoreState]. *)
Definition restoreAlloc (s : Client * list string) (id : string)
  : Client * list string :=
  let a := allocationWithID id in
  let c := emit s.1 [EvNewAllocRunner a] in
  let c := set_allocs c (<[id := NewAllocRunner a]> (allocs c)) in
  let c := emit c [EvRestoreState id] in
  match RestoreState id with
  | inr err =>
      (emit c [EvLog "ERR" ("failed to restore state for alloc " +:+ id)],
       s.2 ++ [err])
  | inl restored =>
      (emit (set_allocs c (<[id := {| alloc := restored |}]> (allocs c)))
            [EvRun id], s.2)
  end.

(** [restoreState] *)
Definition restoreState (stateDir : string) (fs : FS) (c : Client)
  : Client * option error :=
  if DevMode c then (c, None)
  else
    match ReadDir fs (filepath_Join stateDir "alloc") with
    | (_, Some NotExist) => (c, None)
    | (_, Some (IOError e)) =>
        (c, Some (wrapError "failed to list alloc state: " (errorString e)))
    | (list, None) =>
        let r := foldl restoreAlloc (c, []) list in
        (r.1, ErrorOrNil r.2)
    end.

End Restore.

Inductive bootResult :=
| Booted (c : Client) (cfg : Config) (fs : FS)   (* return c, nil *)
| BootFailed (err : error) (tr : list Event)     (* return nil, err *)
| BootPanic.

Section Boot.

Variable BuiltinFingerprints : list string.
Variable NewFingerprint : string → Fingerprinter + string.
Variable RestoreState : string → Allocation + string.

(** [NewClient], up to the embedded message server. *)
Definition NewClient (env : bootEnv) (cfg : Config) (fs : FS) : bootResult :=
  match init env cfg fs with
  | (_, _, Some err) =>
      BootFailed (wrapError "failed to initialize client: " err) []
  | (cfg, fs, None) =>
  match setupNode env cfg fs with
  | (_, _, Some err) => BootFailed (wrapError "node setup failed: " err) []
  | (cfg, fs, None) =>
  match fingerprint BuiltinFingerprints NewFingerprint cfg
                    (default zeroNode (cfg_Node cfg)) [] with
  | (_, FpPanic) => BootPanic
  | (st, FpError err) =>
      BootFailed (wrapError "fingerprinting failed: " (errorString err))
                 (fp_trace st)
  | (st, FpDone) =>
  match reservePorts (GloballyReservedPorts cfg) (fp_node st) with
  | None => BootPanic
  | Some n =>
  let cfg := set_Node cfg n in
  let c := {| DevMode := cfg_DevMode cfg; node := n; allocs := ∅;
              blockedAllocations := ∅; trace := fp_trace st |} in
  match restoreState RestoreState (StateDir cfg) fs c with
  | (c, Some err) =>
      BootFailed (wrapError "failed to restore state: " err) (trace c)
  | (c, None) =>
      Booted (emit c [EvGo "registerAndHeartbeat"; EvGo "periodicSnapshot";
                      EvGo "allocSync"; EvGo "run"; EvGo "collectHostStats";
                      EvGo "rpcProxy.Run"; EvGo "gnatsd"]) cfg fs
  end end end end end.

End Boot.

(** ** Invariants of the indexes *)

(** Every entry of the blocked index sits under the ID of its predecessor. *)
Definition blocked_wf (c : Client) : Prop :=
  ∀ k b, blockedAllocations c !! k = Some b → PreviousAllocation b = k.

(** Every pending update sits under its own ID. *)
Definition updates_wf (st : syncState) : Prop :=
  ∀ k a, updates st !! k = Some a → ID a = k.

(** The ticker runs at [allocSyncIntv] unless the loop is staggered. *)
Definition ticker_wf (st : syncState) : Prop :=
  staggered st = false → syncTicker st = allocSyncIntv.

(** The states the reconciler and the sync loop reach from a client that
    has just booted. *)
Inductive reachable (Terminated : Allocation → bool)
  : syncState * Client → Prop :=
| reach_boot devMode n tr :
    reachable Terminated
      (allocSync_start,
       {| DevMode := devMode; node := n; allocs := ∅;
          blockedAllocations := ∅; trace := tr |})
| reach_runAllocs st c diff :
    reachable Terminated (st, c) →
    reachable Terminated (st, runAllocs Terminated c diff)
| reach_recv s a :
    reachable Terminated s →
    reachable Terminated (allocSync_recv Terminated s a)
| reach_tick s rpcErr r :
    reachable Terminated s →
    reachable Terminated (allocSync_tick rpcErr r s).

(** A terminal status update for the ID [k] is among the messages. *)
Definition terminal_seen (Terminated : Allocation → bool) (k : string)
    (msgs : list Allocation) : bool :=
  existsb (λ a, bool_decide (ID a = k) && Terminated a) msgs.





(** The error, if any, that restoring the allocation [id] meets. *)
Definition restoreFailure (RestoreState : string → Allocation + string)
    (id : string) : option string :=
  match RestoreState id with
  | inr err => Some err
  | inl _ => None
  end.

(** The locals of [fingerprint] when its loop starts, in [NewClient]. *)
Definition fingerprintStart (cfg : Config) : fpState :=
  {| fp_node := default zeroNode (cfg_Node cfg); applied := [];
     skipped := [];
     fp_trace := [EvLog "DEBUG" "built-in fingerprints"] |}.

(** A round that ends the loop of [retryRegisterNode]: the registration
    succeeds, or the shutdown wins the wait that follows the failure. *)
Definition registerEnds (att : registerAttempt) : Prop :=
  (∃ ttl, reg_answer att = RegisterOK ttl) ∨ reg_shutdown att = true.

(** A round of the loop of [retryRegisterNode] that the loop goes past: the
    registration fails and the wait that follows ends by the timer, not by
    the shutdown. *)
Definition registerRetried (att : registerAttempt) : Prop :=
  (∃ e, reg_answer att = RegisterErr e) ∧ reg_shutdown att = false.

(** One instance of [Terminated], for the examples: the client status is
    complete, failed or lost. *)
Definition clientTerminal (a : Allocation) : bool :=
  bool_decide (ClientStatus a = "complete")
  || bool_decide (ClientStatus a = "failed")
  || bool_decide (ClientStatus a = "lost").

(** ** Scenarios *)

Module Scenario.

Definition running (id prev : string) : Allocation :=
  {| ID := id; NodeID := "node-1"; TaskStates := None;
     ClientStatus := "running"; ClientDescription := "";
     PreviousAllocation := prev; AllocModifyIndex := 7%N;
     Payload := Some "job" |}.

(** A status update as [updateAllocStatus] strips it. *)
Definition status (id st : string) : Allocation :=
  {| ID := id; NodeID := "node-1"; TaskStates := None; ClientStatus := st;
     ClientDescription := ""; PreviousAllocation := "";
     AllocModifyIndex := 0%N; Payload := None |}.

Definition allocA : Allocation := running "alloc-A" "".
Definition allocB : Allocation := running "alloc-B" "alloc-A".

Definition node1 : Node :=
  {| Node_ID := "node-1"; Datacenter := "dc1"; Name := "worker";
     Attributes := Some ∅; Links := Some ∅; Meta := Some ∅;
     Node_Resources := Some {| Networks := [] |};
     Reserved := Some {| Networks := [] |};
     Status := NodeStatusReady |}.

(** A client with no allocation, and one that runs [allocA]. *)
Definition idle (devMode : bool) : Client :=
  {| DevMode := devMode; node := node1; allocs := ∅;
     blockedAllocations := ∅; trace := [] |}.

Definition busy : Client := addAlloc (idle false) allocA.

(** [allocB] arrives while [allocA] runs. *)
Definition chained : Client := startAlloc clientTerminal busy allocB.



(** The servers have work for this node, but the pull fails. *)
Definition pullFails : watchEnv :=
  {| getClientAllocs := λ _,
       inl {| resp_Allocs := {["alloc-A" := 7%N]}; resp_Index := 10%N |};
     getAllocs := λ _, inr "no known servers";
     shutdownInRetry := false; shutdownAfterGet := false;
     shutdownAfterPull := false; shutdownInSend := false;
     draw := 0; runners := ∅ |}.

Definition pullWorks : watchEnv :=
  {| getClientAllocs := λ _,
       inl {| resp_Allocs := {["alloc-A" := 7%N]}; resp_Index := 10%N |};
     getAllocs := λ _, inl [allocA];
     shutdownInRetry := false; shutdownAfterGet := false;
     shutdownAfterPull := false; shutdownInSend := false;
     draw := 0; runners := ∅ |}.

Definition olderThan (ar : AllocRunner) (idx : N) : bool :=
  (AllocModifyIndex (alloc ar) <? idx)%N.

Definition registered : heartbeatState :=
  {| hb_Status := NodeStatusReady; heartbeatTTL := 10 * Second;
     lastHeartbeatFromQuorum := true; heartbeat := 10 * Second;
     hb_trace := [] |}.

Definition registerRounds : list registerAttempt :=
  [ {| reg_answer := RegisterErr "no leader"; reg_afterGrace := true;
       reg_shutdown := false |};
    {| reg_answer := RegisterOK (12 * Second); reg_afterGrace := true;
       reg_shutdown := false |} ].

Definition emptyDisk : FS :=
  {| fs_files := ∅; fs_dirs := ∅; fs_fault := λ _, None |}.

Definition someUUID : string := "7c9e6679-7425-40de-944b-e07fc1f90ae7".

Definition machine : bootEnv :=
  {| tmpStateDir := "/tmp/UdupClient1"; tmpAllocDir := "/tmp/UdupClient2";
     hostname := "worker"; uuid := someUUID |}.

Definition devConfig : Config :=
  {| cfg_DevMode := true; StateDir := ""; AllocDir := ""; Region := "global";
     cfg_Node := None; GloballyReservedPorts := [];
     fingerprint_whitelist := ∅ |}.

(** A fingerprinter whose one-shot pass fails. *)
Definition failing : Fingerprinter :=
  {| Fingerprint := λ _ n, Some (n, false, Some "probe failed");
     Periodic := (false, 0) |}.

Definition twoBuiltins : list string := ["cpu"; "arch"].

Definition factory (name : string) : Fingerprinter + string :=
  if bool_decide (name = "cpu") then inl failing
  else if bool_decide (name = "arch") then inl (ArchFingerprint "amd64")
  else inr "unknown fingerprint".

(** A state directory with the state of two allocations; the first does
    not restore. *)
Definition warmDisk : FS :=
  {| fs_files := {["/var/udup/client-id" := (someUUID, 448)]};
     fs_dirs := {["/var/udup" := (448, ["alloc"; "client-id"]);
                  "/var/udup/alloc" := (448, ["alloc-1"; "alloc-2"])]};
     fs_fault := λ _, None |}.

Definition warmConfig : Config :=
  {| cfg_DevMode := false; StateDir := "/var/udup"; AllocDir := "/var/alloc";
     Region := "global"; cfg_Node := None; GloballyReservedPorts := [];
     fingerprint_whitelist := ∅ |}.

Definition archOnly : list string := ["arch"].

Definition firstCorrupt (id : string) : Allocation + string :=
  if bool_decide (id = "alloc-1") then inr "snapshot unreadable"
  else inl (running id "").




End Scenario.

(** * Properties *)

Lemma occurrences_app e (l1 l2 : list Event) :
  occurrences e (l1 ++ l2) = (occurrences e l1 + occurrences e l2)%nat.
Proof. unfold occurrences. by rewrite filter_app, length_app. Qed.

Lemma occurrences_nil e : occurrences e [] = 0%nat.
Proof. done. Qed.

Lemma occurrences_cons_eq e (l : list Event) :
  occurrences e (e :: l) = S (occurrences e l).
Proof. unfold occurrences. by rewrite filter_cons_True. Qed.

Lemma occurrences_cons_ne e e' (l : list Event) :
  e' ≠ e → occurrences e (e' :: l) = occurrences e l.
Proof. intros. unfold occurrences. by rewrite filter_cons_False. Qed.

Ltac count_events :=
  repeat first
    [ rewrite occurrences_app
    | rewrite occurrences_cons_eq
    | rewrite occurrences_cons_ne by discriminate
    | rewrite occurrences_nil ].

Lemma occurrences_addAlloc (b b' : Allocation) (tr : list Event) :
  occurrences (EvNewAllocRunner b) (tr ++ [EvNewAllocRunner b'; EvRun (ID b')])
  = (occurrences (EvNewAllocRunner b) tr + if decide (b' = b) then 1 else 0)%nat.
Proof.
  rewrite occurrences_app. f_equal. unfold occurrences.
  destruct (decide (b' = b)) as [->|Hne].
  - rewrite filter_cons_True by done. by rewrite filter_cons_False by done.
  - rewrite filter_cons_False by congruence.
    by rewrite filter_cons_False by done.
Qed.

Section ReconcilerFacts.

Variable Terminated : Allocation → bool.

Lemma startAlloc_blocks (c : Client) (B : Allocation) (ar : AllocRunner) :
  allocs c !! PreviousAllocation B = Some ar →
  Terminated (alloc ar) = false →
  startAlloc Terminated c B =
    set_blocked (emit c [EvLog "DEBUG" "added alloc to blocked queue"])
                (<[PreviousAllocation B := B]> (blockedAllocations c)).
Proof. intros Hl Ht. unfold startAlloc. by rewrite Hl, Ht. Qed.

Lemma startAlloc_adds (c : Client) (B : Allocation) :
  ¬ (∃ ar, allocs c !! PreviousAllocation B = Some ar
           ∧ Terminated (alloc ar) = false) →
  startAlloc Terminated c B = addAlloc c B.
Proof.
  intros Hn. unfold startAlloc.
  destruct (allocs c !! PreviousAllocation B) as [ar|] eqn:Hl; [|done].
  destruct (Terminated (alloc ar)) eqn:Ht; [done|].
  exfalso. apply Hn. eauto.
Qed.

(** C1. The chain guard of [runAllocs]. If the predecessor named by
    [PreviousAllocation B] has a runner in the alloc index whose allocation
    is not terminal, [B] goes into the blocked index under that key, the
    alloc index is untouched and no runner is built or run for [B].
    Otherwise (the predecessor is absent, which includes an empty
    [PreviousAllocation] that is no key of the index, or it is terminal) a
    runner is built for [B], its [Run] is launched and it is installed
    under [ID B]; the blocked index is untouched. *)
Theorem runAllocs_chain_guard (c : Client) (B : Allocation) :
  let c' := startAlloc Terminated c B in
  (∀ ar, allocs c !! PreviousAllocation B = Some ar →
         Terminated (alloc ar) = false →
         blockedAllocations c' = <[PreviousAllocation B := B]> (blockedAllocations c)
         ∧ blockedAllocations c' !! PreviousAllocation B = Some B
         ∧ allocs c' = allocs c
         ∧ trace c' = trace c ++ [EvLog "DEBUG" "added alloc to blocked queue"]
         ∧ occurrences (EvNewAllocRunner B) (trace c')
           = occurrences (EvNewAllocRunner B) (trace c)
         ∧ occurrences (EvRun (ID B)) (trace c')
           = occurrences (EvRun (ID B)) (trace c))
  ∧ ((PreviousAllocation B = "" ∧ allocs c !! "" = None)
     ∨ allocs c !! PreviousAllocation B = None
     ∨ (∃ ar, allocs c !! PreviousAllocation B = Some ar
              ∧ Terminated (alloc ar) = true) →
     allocs c' = <[ID B := NewAllocRunner B]> (allocs c)
     ∧ allocs c' !! ID B = Some (NewAllocRunner B)
     ∧ blockedAllocations c' = blockedAllocations c
     ∧ trace c' = trace c ++ [EvNewAllocRunner B; EvRun (ID B)]).
Proof.
  intros c'. split.
  - intros ar Hl Ht. subst c'.
    rewrite (startAlloc_blocks _ _ _ Hl Ht). simpl.
    rewrite lookup_insert_eq, !occurrences_app.
    repeat split; try done; unfold occurrences; simpl;
      rewrite filter_cons_False by done; simpl; lia.
  - intros Hcase. subst c'. rewrite startAlloc_adds.
    + simpl. by rewrite lookup_insert_eq.
    + intros (ar & Hl & Ht).
      destruct Hcase as [[He Hn]|[Hn|(ar' & Hl' & Ht')]]; simplify_eq.
      * rewrite He in Hl. congruence.
      * congruence.
Qed.

Lemma startAlloc_blocked_wf (c : Client) (a : Allocation) :
  blocked_wf c → blocked_wf (startAlloc Terminated c a).
Proof.
  intros Hwf. unfold startAlloc.
  destruct (allocs c !! PreviousAllocation a) as [ar|]; [|done].
  destruct (Terminated (alloc ar)); [done|].
  intros k b. simpl. rewrite lookup_insert.
  case_decide; [naive_solver | apply Hwf].
Qed.

Lemma removeAlloc_blocked (c : Client) (a : Allocation) :
  blockedAllocations (removeAlloc c a) = blockedAllocations c.
Proof. unfold removeAlloc. by destruct (allocs c !! ID a). Qed.

Lemma updateAlloc_blocked (c : Client) (e u : Allocation) :
  blockedAllocations (updateAlloc c e u) = blockedAllocations c.
Proof. unfold updateAlloc. by destruct (allocs c !! ID e). Qed.

Lemma runAllocs_blocked_wf (c : Client) (diff : diffResult) :
  blocked_wf c → blocked_wf (runAllocs Terminated c diff).
Proof.
  intros Hwf. unfold runAllocs.
  assert (Hrm : ∀ l c0, blocked_wf c0 → blocked_wf (foldl removeAlloc c0 l)).
  { induction l as [|x l IH]; intros c0 H0; simpl; [done|].
    apply IH. unfold blocked_wf. by rewrite removeAlloc_blocked. }
  assert (Hup : ∀ (l : list (Allocation * Allocation)) c0, blocked_wf c0 →
            blocked_wf (foldl (λ c u, updateAlloc c u.1 u.2) c0 l)).
  { induction l as [|x l IH]; intros c0 H0; simpl; [done|].
    apply IH. unfold blocked_wf. by rewrite updateAlloc_blocked. }
  assert (Hadd : ∀ l c0, blocked_wf c0 →
            blocked_wf (foldl (startAlloc Terminated) c0 l)).
  { induction l as [|x l IH]; intros c0 H0; simpl; [done|].
    by apply IH, startAlloc_blocked_wf. }
  unfold blocked_wf. simpl. by apply Hadd, Hup, Hrm.
Qed.

Lemma allocSync_recv_blocked_wf (s : syncState * Client) (a : Allocation) :
  blocked_wf s.2 → blocked_wf (allocSync_recv Terminated s a).2.
Proof.
  intros Hwf. unfold allocSync_recv.
  destruct (blockedAllocations s.2 !! ID a) as [b|]; [|done].
  destruct (Terminated a); [|done].
  intros k b'. simpl. rewrite lookup_delete.
  case_decide; [done | apply Hwf].
Qed.

Lemma allocSync_tick_client rpcErr r (s : syncState * Client) :
  blockedAllocations (allocSync_tick rpcErr r s).2 = blockedAllocations s.2
  ∧ allocs (allocSync_tick rpcErr r s).2 = allocs s.2
  ∧ ∀ b, occurrences (EvNewAllocRunner b) (trace (allocSync_tick rpcErr r s).2)
         = occurrences (EvNewAllocRunner b) (trace s.2).
Proof.
  unfold allocSync_tick.
  destruct (size (updates s.1) =? 0)%nat; [done|].
  destruct (rpcErr _); simpl; repeat split; try done; intros b;
    rewrite ?occurrences_app; unfold occurrences; simpl;
    rewrite ?filter_cons_False by done; simpl; lia.
Qed.

Lemma reachable_blocked_wf (s : syncState * Client) :
  reachable Terminated s → blocked_wf s.2.
Proof.
  induction 1 as [| st c diff _ IH | s a _ IH | s rpcErr r _ IH]; simpl.
  - intros k b. simpl. by rewrite lookup_empty.
  - by apply runAllocs_blocked_wf.
  - by apply allocSync_recv_blocked_wf.
  - unfold blocked_wf.
    by rewrite (proj1 (allocSync_tick_client rpcErr r s)).
Qed.

(** A status update that releases the successor [b] blocked under its ID. *)
Lemma allocSync_recv_release (s : syncState * Client) (msg b : Allocation) :
  blocked_wf s.2 →
  blockedAllocations s.2 !! ID msg = Some b →
  Terminated msg = true →
  (allocSync_recv Terminated s msg).2 =
    set_blocked (addAlloc s.2 b) (delete (ID msg) (blockedAllocations s.2)).
Proof.
  intros Hwf Hl Ht. unfold allocSync_recv. rewrite Hl, Ht. simpl.
  by rewrite (Hwf _ _ Hl).
Qed.

Lemma allocSync_recv_idle (s : syncState * Client) (msg : Allocation) :
  Terminated msg = false ∨ blockedAllocations s.2 !! ID msg = None →
  (allocSync_recv Terminated s msg).2 = s.2.
Proof.
  intros H. unfold allocSync_recv.
  destruct (blockedAllocations s.2 !! ID msg) as [b|]; [|done].
  destruct (Terminated msg); [|done]. by destruct H.
Qed.

(** Once the key of [b] has left the blocked index, the sync loop builds no
    further runner for [b]. *)
Lemma allocSync_released_stays (inputs : list syncInput)
    (s : syncState * Client) (b : Allocation) :
  blocked_wf s.2 →
  blockedAllocations s.2 !! PreviousAllocation b = None →
  occurrences (EvNewAllocRunner b) (trace (allocSync Terminated inputs s).2)
  = occurrences (EvNewAllocRunner b) (trace s.2).
Proof.
  revert s. induction inputs as [|i inputs IH]; intros s Hwf Hk; [done|].
  destruct i as [|a|rpcErr r]; simpl; [done| |].
  - rewrite IH.
    + destruct (blockedAllocations s.2 !! ID a) as [b'|] eqn:Hl;
        [destruct (Terminated a) eqn:Ht|].
      * rewrite (allocSync_recv_release _ _ _ Hwf Hl Ht). simpl.
        rewrite occurrences_addAlloc, decide_False; [lia|].
        intros ->. rewrite (Hwf _ _ Hl) in Hk. congruence.
      * by rewrite allocSync_recv_idle by by left.
      * by rewrite allocSync_recv_idle by by right.
    + by apply allocSync_recv_blocked_wf.
    + unfold allocSync_recv.
      destruct (blockedAllocations s.2 !! ID a) as [b'|]; [|done].
      destruct (Terminated a); [|done]. simpl.
      rewrite lookup_delete. by case_decide.
  - destruct (allocSync_tick_client rpcErr r s) as (Hb & _ & Ho).
    rewrite IH; [apply Ho| |by rewrite Hb].
    unfold blocked_wf. by rewrite Hb.
Qed.

(** While [b] waits under [k], the sync loop builds exactly one runner for
    it if a terminal update for [k] arrives, and none otherwise. *)
Lemma allocSync_releases_once (inputs : list syncInput)
    (s : syncState * Client) (k : string) (b : Allocation) :
  blocked_wf s.2 →
  blockedAllocations s.2 !! k = Some b →
  occurrences (EvNewAllocRunner b) (trace (allocSync Terminated inputs s).2)
  = (occurrences (EvNewAllocRunner b) (trace s.2)
     + if terminal_seen Terminated k (received inputs) then 1 else 0)%nat.
Proof.
  revert s. induction inputs as [|i inputs IH]; intros s Hwf Hk; simpl.
  { lia. }
  destruct i as [|a|rpcErr r]; simpl.
  - lia.
  - destruct (decide (ID a = k)) as [<-|Hne].
    + rewrite bool_decide_eq_true_2 by done. simpl.
      destruct (Terminated a) eqn:Ht; simpl.
      * rewrite allocSync_released_stays.
        -- rewrite (allocSync_recv_release _ _ _ Hwf Hk Ht). simpl.
           by rewrite occurrences_addAlloc, decide_True.
        -- by apply allocSync_recv_blocked_wf.
        -- rewrite (allocSync_recv_release _ _ _ Hwf Hk Ht). simpl.
           rewrite (Hwf _ _ Hk). apply lookup_delete_eq.
      * rewrite IH; [|by apply allocSync_recv_blocked_wf|].
        -- by rewrite allocSync_recv_idle by by left.
        -- by rewrite allocSync_recv_idle by by left.
    + rewrite bool_decide_eq_false_2 by done. simpl.
      rewrite IH; [|by apply allocSync_recv_blocked_wf|].
      * destruct (blockedAllocations s.2 !! ID a) as [b'|] eqn:Hl;
          [destruct (Terminated a) eqn:Ht|].
        -- rewrite (allocSync_recv_release _ _ _ Hwf Hl Ht). simpl.
           rewrite occurrences_addAlloc, decide_False; [lia|].
           intros ->. pose proof (Hwf _ _ Hl). pose proof (Hwf _ _ Hk).
           congruence.
        -- by rewrite allocSync_recv_idle by by left.
        -- by rewrite allocSync_recv_idle by by right.
      * unfold allocSync_recv.
        destruct (blockedAllocations s.2 !! ID a) as [b'|] eqn:Hl; [|done].
        destruct (Terminated a); [|done]. simpl.
        rewrite lookup_delete. rewrite (Hwf _ _ Hl).
        by rewrite decide_False by done.
  - destruct (allocSync_tick_client rpcErr r s) as (Hb & _ & Ho).
    rewrite IH; [by rewrite Ho| |by rewrite Hb].
    unfold blocked_wf. by rewrite Hb.
Qed.

(** C2. Intake of a status update by [allocSync], in a state where every
    blocked allocation sits under its predecessor's ID (as in every
    reachable state). A terminal update whose ID is a key of the blocked
    index adds the blocked successor (runner built, run, installed in the
    alloc index) and removes that key, in the same step; any other update
    leaves the client, and so the blocked index, unchanged. Hence over any
    run of the sync loop a blocked allocation is released once if a
    terminal update for its key arrives and not at all otherwise. *)
Theorem allocSync_chained_release (s : syncState * Client) (msg : Allocation) :
  blocked_wf s.2 →
  let c' := (allocSync_recv Terminated s msg).2 in
  (∀ b, blockedAllocations s.2 !! ID msg = Some b → Terminated msg = true →
        allocs c' = <[ID b := NewAllocRunner b]> (allocs s.2)
        ∧ trace c' = trace s.2 ++ [EvNewAllocRunner b; EvRun (ID b)]
        ∧ blockedAllocations c' = delete (ID msg) (blockedAllocations s.2)
        ∧ blockedAllocations c' !! ID msg = None)
  ∧ (Terminated msg = false ∨ blockedAllocations s.2 !! ID msg = None →
     c' = s.2)
  ∧ (∀ k b inputs, blockedAllocations s.2 !! k = Some b →
       occurrences (EvNewAllocRunner b)
                   (trace (allocSync Terminated inputs s).2)
       = (occurrences (EvNewAllocRunner b) (trace s.2)
          + if terminal_seen Terminated k (received inputs) then 1 else 0)%nat).
Proof.
  intros Hwf c'. split; [|split].
  - intros b Hk Ht. subst c'.
    rewrite (allocSync_recv_release _ _ _ Hwf Hk Ht). simpl.
    by rewrite lookup_delete_eq.
  - apply allocSync_recv_idle.
  - intros k b inputs Hk. by apply allocSync_releases_once.
Qed.

End ReconcilerFacts.

(** ** The sync loop: batching and the ticker *)

Section SyncFacts.

Variable Terminated : Allocation → bool.

Lemma allocSync_recv_sync (s : syncState * Client) (a : Allocation) :
  (allocSync_recv Terminated s a).1 =
    {| staggered := staggered s.1; syncTicker := syncTicker s.1;
       updates := <[ID a := a]> (updates s.1) |}.
Proof.
  unfold allocSync_recv.
  destruct (blockedAllocations s.2 !! ID a); [|done].
  by destruct (Terminated a).
Qed.


Lemma allocSync_recv_updates_wf (s : syncState * Client) (a : Allocation) :
  updates_wf s.1 → updates_wf (allocSync_recv Terminated s a).1.
Proof.
  intros Hwf k a'. rewrite allocSync_recv_sync. simpl.
  rewrite lookup_insert. case_decide; [naive_solver | apply Hwf].
Qed.

Lemma allocSync_recv_ticker_wf (s : syncState * Client) (a : Allocation) :
  ticker_wf s.1 → ticker_wf (allocSync_recv Terminated s a).1.
Proof. unfold ticker_wf. by rewrite allocSync_recv_sync. Qed.

Lemma allocSync_tick_wf rpcErr r (s : syncState * Client) :
  updates_wf s.1 → ticker_wf s.1 →
  updates_wf (allocSync_tick rpcErr r s).1
  ∧ ticker_wf (allocSync_tick rpcErr r s).1.
Proof.
  intros Hu Ht. unfold allocSync_tick.
  destruct (size (updates s.1) =? 0)%nat; [done|].
  destruct (rpcErr _); simpl; split.
  - exact Hu.
  - by intros ?.
  - intros k a. simpl. by rewrite lookup_empty.
  - intros _. simpl. destruct (staggered s.1) eqn:Hs; [done|by apply Ht].
Qed.

(** The hypotheses on the sync state below hold in every reachable state. *)
Lemma reachable_sync_wf (s : syncState * Client) :
  reachable Terminated s → updates_wf s.1 ∧ ticker_wf s.1.
Proof.
  induction 1 as [| st c diff _ IH | s a _ [IHu IHt] | s rpcErr r _ [IHu IHt]].
  - split; [|done]. intros k a. simpl. by rewrite lookup_empty.
  - done.
  - split; [by apply allocSync_recv_updates_wf
           |by apply allocSync_recv_ticker_wf].
  - by apply allocSync_tick_wf.
Qed.




Lemma retryIntv_range (base r : Z) :
  0 < base → base ≤ retryIntv false base r < 2 * base.
Proof.
  intros Hb. unfold retryIntv, RandomStagger.
  pose proof (Z.mod_pos_bound r base Hb). lia.
Qed.


End SyncFacts.

(** ** [updateAllocStatus] *)

(** C10. From an allocation [a] behind the pointer [p],
    [updateAllocStatus] allocates a new object [q] (no pointer of the store
    before the call), whose ID, TaskStates, ClientStatus and
    ClientDescription are those of [a], whose NodeID is the ID of the
    client's own node, and whose other fields hold their zero values; that
    pointer is what is sent on the channel when the send is taken; every
    object that was in the store, [a] included, is unchanged. *)
Theorem updateAllocStatus_stripped (c : Client) (h : gmap positive Allocation)
    (ch : list positive) (shutdownWins : bool) (p : positive)
    (a : Allocation) :
  h !! p = Some a →
  ∃ q h',
    updateAllocStatus c h ch shutdownWins p
      = Some (h', if shutdownWins then ch else ch ++ [q])
    ∧ h !! q = None
    ∧ h' !! q = Some {| ID := ID a; NodeID := Node_ID (node c);
                        TaskStates := TaskStates a;
                        ClientStatus := ClientStatus a;
                        ClientDescription := ClientDescription a;
                        PreviousAllocation := "";
                        AllocModifyIndex := 0%N; Payload := None |}
    ∧ ∀ p', is_Some (h !! p') → h' !! p' = h !! p'.
Proof.
  intros Hp. unfold updateAllocStatus. rewrite Hp. simpl.
  eexists _, _. split; [reflexivity|].
  assert (Hfresh : h !! fresh (dom h) = None).
  { apply not_elem_of_dom, is_fresh. }
  repeat split.
  - done.
  - by rewrite lookup_insert_eq.
  - intros p' [x Hx]. rewrite lookup_insert_ne; [done|]. congruence.
Qed.

(** ** The allocation watcher: the query index *)

Section WatcherFacts.

Variable shouldUpdate : AllocRunner → N → bool.

Lemma advance_max (q i : N) : (if (q <? i)%N then i else q) = N.max q i.
Proof. destruct (N.ltb_spec q i); lia. Qed.

Lemma watchAllocations_iter_mono (devMode : bool) (env : watchEnv) (q : N) :
  (q ≤ (watchAllocations_iter shouldUpdate devMode env q).1)%N.
Proof.
  unfold watchAllocations_iter.
  destruct (getClientAllocs env q) as [resp|e]; [|done].
  destruct (shutdownAfterGet env); [done|].
  destruct (length _ =? 0)%nat; simpl.
  - rewrite advance_max. lia.
  - destruct (getAllocs env _) as [rs|e]; [|done].
    destruct (shutdownAfterPull env); [done|]. simpl.
    rewrite advance_max. lia.
Qed.

(** C6, amended. In an iteration of the watcher in which
    [Node.GetClientAllocs] answers, no shutdown is seen and the pull, when
    there is something to pull, succeeds, [MinQueryIndex] becomes the
    maximum of its previous value and the response index. In an iteration
    that ends earlier (an RPC error, or a shutdown) it is unchanged. So it
    never decreases: the values it takes over any run of the loop are in
    non-decreasing order. *)
Theorem watchAllocations_index (devMode : bool) (env : watchEnv) (q : N) :
  let r := watchAllocations_iter shouldUpdate devMode env q in
  (∀ resp, getClientAllocs env q = inl resp →
           shutdownAfterGet env = false →
           (pullSet shouldUpdate (runners env) resp = []
            ∨ ∃ rs, getAllocs env (pullSet shouldUpdate (runners env) resp)
                    = inl rs ∧ shutdownAfterPull env = false) →
           r.1 = N.max q (resp_Index resp))
  ∧ (∀ e, getClientAllocs env q = inr e → r.1 = q)
  ∧ (∀ resp, getClientAllocs env q = inl resp →
             shutdownAfterGet env = true
             ∨ (∃ e, pullSet shouldUpdate (runners env) resp ≠ []
                     ∧ getAllocs env (pullSet shouldUpdate (runners env) resp)
                       = inr e)
             ∨ (pullSet shouldUpdate (runners env) resp ≠ []
                ∧ shutdownAfterPull env = true) →
             r.1 = q)
  ∧ (q ≤ r.1)%N
  ∧ ∀ envs, Sorted N.le (q :: watchAllocations shouldUpdate devMode envs q).
Proof.
  intros r. subst r. split; [|split; [|split; [|split]]].
  - intros resp Hg Hs Hp. unfold watchAllocations_iter. rewrite Hg, Hs.
    destruct Hp as [Hp|(rs & Hp & Hs')].
    + rewrite Hp. simpl. apply advance_max.
    + rewrite Hp, Hs'.
      destruct (length _ =? 0)%nat; simpl; apply advance_max.
  - intros e Hg. unfold watchAllocations_iter. by rewrite Hg.
  - intros resp Hg Hcase. unfold watchAllocations_iter. rewrite Hg.
    destruct Hcase as [->|[(e & Hne & He)|[Hne Hs]]]; [done| |].
    + destruct (shutdownAfterGet env); [done|].
      destruct (pullSet _ _ _) as [|x l]; [done|]. simpl. by rewrite He.
    + destruct (shutdownAfterGet env); [done|].
      destruct (pullSet _ _ _) as [|x l]; [done|]. simpl. rewrite Hs.
      by destruct (getAllocs env _).
  - apply watchAllocations_iter_mono.
  - intros envs. revert q.
    induction envs as [|env' envs IH]; intros q; simpl.
    + repeat constructor.
    + pose proof (watchAllocations_iter_mono devMode env' q) as Hmono.
      constructor; [|by constructor].
      destruct (watchAllocations_iter shouldUpdate devMode env' q).2;
        try apply IH.
      repeat constructor.
Qed.

End WatcherFacts.

(** ** Heartbeats: stale registration and backoff *)

(** The prefix [updateNodeStatus] puts before the RPC error does not change
    whether the text contains the marker. *)
Lemma Contains_wrapped (msg : string) :
  Contains ("failed to update status: " +:+ msg) "node not found"
  = Contains msg "node not found".
Proof. reflexivity. Qed.

Lemma registerLoop_ends (attempts : list registerAttempt)
    (st : heartbeatState) :
  Exists registerEnds attempts → is_Some (registerLoop attempts st).
Proof.
  intros Hex. revert st.
  induction Hex as [att rest Hend|att rest _ IH]; intros st; simpl.
  - unfold registerNode. destruct Hend as [[ttl ->]| ->]; [by eexists|].
    destruct (reg_answer att); by eexists.
  - unfold registerNode. destruct (reg_answer att); [by eexists|].
    destruct (reg_shutdown att); [by eexists|]. apply IH.
Qed.

Lemma registerLoop_trace (attempts : list registerAttempt)
    (st st' : heartbeatState) (rest : list registerAttempt) :
  registerLoop attempts st = Some (st', rest) →
  (∀ e, (∀ l m, EvLog l m ≠ e) → EvRPC "Node.Register" [] ≠ e →
        occurrences e (hb_trace st') = occurrences e (hb_trace st))
  ∧ (occurrences (EvRPC "Node.Register" []) (hb_trace st')
     = occurrences (EvRPC "Node.Register" []) (hb_trace st)
       + (length attempts - length rest))%nat
  ∧ (length rest < length attempts)%nat.
Proof.
  revert st. induction attempts as [|att attempts IH]; intros st; [done|].
  simpl. unfold registerNode.
  destruct (reg_answer att) as [ttl|e]; simpl.
  - intros [= <- <-]. simpl. count_events.
    split; [|lia]. intros e Hlog Hrpc. count_events.
    rewrite !occurrences_cons_ne by done. count_events. lia.
  - destruct (reg_shutdown att).
    + intros [= <- <-]. simpl. count_events.
      split; [|lia]. intros e' Hlog Hrpc. count_events.
      rewrite !occurrences_cons_ne by done. count_events. lia.
    + intros Hloop. apply IH in Hloop as (H1 & H2 & H3).
      rewrite H2. simpl. count_events.
      split; [|split; lia]. intros e' Hlog Hrpc.
      rewrite H1 by done. simpl. count_events.
      rewrite !occurrences_cons_ne by done. count_events. lia.
Qed.

Lemma RandomStagger_range (intv r : Z) :
  0 < intv → 0 ≤ RandomStagger intv r < intv.
Proof. intros. unfold RandomStagger. by apply Z.mod_pos_bound. Qed.

(** How the loop of [retryRegisterNode] ends: the rounds it went past all
    failed and were retried, and the round it stopped at either registered
    the node, which is then ready with the TTL the servers returned, or
    lost the wait to the shutdown, which leaves status and TTL alone. *)
Lemma registerLoop_outcome (attempts : list registerAttempt)
    (st st' : heartbeatState) (rest : list registerAttempt) :
  registerLoop attempts st = Some (st', rest) →
  ∃ failed last,
    attempts = failed ++ last :: rest
    ∧ Forall registerRetried failed
    ∧ heartbeat st' = heartbeat st
    ∧ match reg_answer last with
      | RegisterOK ttl =>
          hb_Status st' = NodeStatusReady ∧ heartbeatTTL st' = ttl
      | RegisterErr _ =>
          reg_shutdown last = true
          ∧ hb_Status st' = hb_Status st
          ∧ heartbeatTTL st' = heartbeatTTL st
      end.
Proof.
  revert st. induction attempts as [|att attempts IH]; intros st; [done|].
  simpl. unfold registerNode.
  destruct (reg_answer att) as [ttl|e] eqn:Hans; simpl.
  - intros [= <- <-]. exists [], att. rewrite Hans. by repeat split.
  - destruct (reg_shutdown att) eqn:Hsd.
    + intros [= <- <-]. exists [], att. rewrite Hans. by repeat split.
    + intros Hloop.
      apply IH in Hloop as (failed & last & -> & Hf & Hh & Hl).
      exists (att :: failed), last. split; [done|].
      split; [constructor; [split; eauto|done]|].
      split; [done|]. by destruct (reg_answer last).
Qed.

(** The loop of [retryRegisterNode] only sends [Node.Register] and logs. *)
Lemma registerLoop_events (attempts : list registerAttempt)
    (st st' : heartbeatState) (rest : list registerAttempt) :
  registerLoop attempts st = Some (st', rest) →
  ∃ evs, hb_trace st' = hb_trace st ++ evs
         ∧ ∀ e, e ∈ evs → e = EvRPC "Node.Register" [] ∨ ∃ l m, e = EvLog l m.
Proof.
  revert st. induction attempts as [|att attempts IH]; intros st; [done|].
  simpl. unfold registerNode.
  assert (Hok : ∀ evs : list Event,
            Forall (λ e, e = EvRPC "Node.Register" [] ∨ ∃ l m, e = EvLog l m)
                   evs →
            ∀ e, e ∈ evs → e = EvRPC "Node.Register" [] ∨ ∃ l m, e = EvLog l m).
  { intros evs Hall. by apply Forall_forall. }
  destruct (reg_answer att) as [ttl|e]; simpl.
  - intros [= <- <-]. simpl. eexists. rewrite <- app_assoc.
    split; [reflexivity|]. apply Hok.
    constructor; [by left|]. constructor; [right; eauto|constructor].
  - destruct (reg_shutdown att).
    + intros [= <- <-]. simpl. eexists. rewrite <- app_assoc.
      split; [reflexivity|]. apply Hok.
      constructor; [by left|]. constructor; [right; eauto|constructor].
    + intros Hloop. apply IH in Hloop as (evs & Htr & Hevs). simpl in Htr.
      eexists. rewrite Htr, <- !app_assoc. split; [reflexivity|].
      intros e' He'. simpl in He'.
      apply elem_of_cons in He' as [->|He']; [by left|].
      apply elem_of_cons in He' as [->|He']; [right; eauto|by apply Hevs].
Qed.

(** C8. A firing of the heartbeat timer whose [updateNodeStatus] returns
    the error [err]. The wrapping of the RPC error keeps the marker. If
    [err] contains "node not found", [retryRegisterNode] is entered once,
    after the [Node.UpdateStatus] and before the timer is armed again, and
    it retries until it succeeds: every round it goes past is a failed
    registration whose wait was not cut by the shutdown, one
    [Node.Register] is sent per round, and it stops at the first round
    that registers the node (the node is then ready, with the TTL the
    servers returned) or that loses its wait to the shutdown; the rounds
    that follow are not consumed. Nothing else is sent. The timer is then
    set to the initial stagger, a value in [0, 10 s). For any other error
    nothing is registered again and the timer is set to [retryIntv]: 15 s
    plus a random part below 15 s, or 1 s in dev mode. *)
Theorem heartbeat_stale_or_backoff (devMode : bool) (ans : statusAnswer)
    (r : Z) (attempts : list registerAttempt) (st st1 : heartbeatState)
    (err : string) :
  updateNodeStatus ans st = (st1, Some err) →
  (∀ msg, ans = StatusErr msg →
     Contains err "node not found" = Contains msg "node not found")
  ∧ (Contains err "node not found" = true →
     Exists registerEnds attempts →
     ∃ st2 rest,
       heartbeat_fire devMode ans r attempts st = Some (st2, rest)
       ∧ occurrences EvRetryRegisterNode (hb_trace st2)
         = S (occurrences EvRetryRegisterNode (hb_trace st))
       ∧ (occurrences (EvRPC "Node.Register" []) (hb_trace st)
          < occurrences (EvRPC "Node.Register" []) (hb_trace st2))%nat
       ∧ occurrences (EvRPC "Node.UpdateStatus" []) (hb_trace st2)
         = S (occurrences (EvRPC "Node.UpdateStatus" []) (hb_trace st))
       ∧ heartbeat st2 = RandomStagger initialHeartbeatStagger r
       ∧ 0 ≤ heartbeat st2 < 10 * Second
       ∧ ∃ failed last evs,
           attempts = failed ++ last :: rest
           ∧ Forall registerRetried failed
           ∧ registerEnds last
           ∧ occurrences (EvRPC "Node.Register" []) (hb_trace st2)
             = (occurrences (EvRPC "Node.Register" []) (hb_trace st)
                + S (length failed))%nat
           ∧ hb_trace st2
             = hb_trace st ++
               [EvRPC "Node.UpdateStatus" [];
                EvLog "INFO" "re-registering node";
                EvRetryRegisterNode] ++ evs
           ∧ (∀ e, e ∈ evs →
                e = EvRPC "Node.Register" [] ∨ ∃ l m, e = EvLog l m)
           ∧ match reg_answer last with
             | RegisterOK ttl =>
                 hb_Status st2 = NodeStatusReady ∧ heartbeatTTL st2 = ttl
             | RegisterErr _ =>
                 reg_shutdown last = true
                 ∧ hb_Status st2 = hb_Status st1
                 ∧ heartbeatTTL st2 = heartbeatTTL st1
             end)
  ∧ (Contains err "node not found" = false →
     ∃ st2,
       heartbeat_fire devMode ans r attempts st = Some (st2, attempts)
       ∧ hb_trace st2 = hb_trace st ++
           [EvRPC "Node.UpdateStatus" [];
            EvLog "ERR" ("heartbeating failed: " +:+ err)]
       ∧ heartbeat st2 = retryIntv devMode registerRetryIntv r
       ∧ (devMode = false →
          heartbeat st2 = 15 * Second + RandomStagger (15 * Second) r
          ∧ 15 * Second ≤ heartbeat st2 < 30 * Second)
       ∧ (devMode = true → heartbeat st2 = Second)).
Proof.
  intros Hupd.
  assert (Htr : hb_trace st1 = hb_trace st ++ [EvRPC "Node.UpdateStatus" []]).
  { unfold updateNodeStatus in Hupd.
    destruct ans as [msg|ttl [e|] leader]; simplify_eq; try done.
    by case_bool_decide. }
  split; [|split].
  - intros msg ->. unfold updateNodeStatus in Hupd. simplify_eq.
    apply Contains_wrapped.
  - intros Hc Hends. unfold heartbeat_fire. rewrite Hupd, Hc.
    destruct (registerLoop_ends attempts
                (hb_emit (hb_emit st1 [EvLog "INFO" "re-registering node"])
                         [EvRetryRegisterNode]) Hends) as [[st2 rest] Hloop].
    unfold retryRegisterNode. rewrite Hloop. simpl.
    exists (set_heartbeat st2 (RandomStagger initialHeartbeatStagger r)), rest.
    destruct (registerLoop_outcome _ _ _ _ Hloop)
      as (failed & last & Happ & Hfailed & _ & Hlast).
    destruct (registerLoop_events _ _ _ _ Hloop) as (evs & Hevs & Honly).
    apply registerLoop_trace in Hloop as (H1 & H2 & H3).
    simpl in *.
    assert (Hlen : (length attempts - length rest = S (length failed))%nat).
    { rewrite Happ, length_app. simpl. lia. }
    rewrite (H1 EvRetryRegisterNode), (H1 (EvRPC "Node.UpdateStatus" [])),
      H2, Htr, Hlen by done.
    count_events.
    split; [done|]. split; [lia|]. split; [lia|]. split; [lia|].
    split; [done|].
    split; [apply (RandomStagger_range (10 * Second)); by compute|].
    exists failed, last, evs. split; [done|]. split; [done|]. split.
    { unfold registerEnds. destruct (reg_answer last) as [ttl|e]; [eauto|].
      right. by destruct Hlast. }
    split; [lia|]. split.
    { rewrite Hevs, Htr, <- !app_assoc. done. }
    split; [done|]. done.
  - intros Hc. unfold heartbeat_fire. rewrite Hupd, Hc. simpl.
    eexists. split; [done|]. simpl. rewrite Htr, <- app_assoc.
    split; [done|]. split; [done|]. split.
    + intros ->. split; [done|].
      apply (retryIntv_range (15 * Second)). by compute.
    + by intros ->.
Qed.

(** ** The node ID *)

(** C9. [nodeID] with the file system behaving (no I/O fault on the ID
    file). Outside dev mode, a non-empty [client-id] file is returned as it
    is and nothing is written. When the file is absent or empty the
    generated UUID is written to that path with [WriteFile(_, _, 0700)]
    (which creates an absent file with that mode) and returned; if the
    UUID is non-empty, [nodeID] on the resulting file system returns the
    same ID again, whatever would be generated then. In dev mode the
    generated UUID is returned and the file system is left as it was. *)
Theorem nodeID_stable (stateDir : string) (generated : string) (fs : FS) :
  let idPath := filepath_Join stateDir "client-id" in
  fs_fault fs idPath = None →
  (∀ data mode, fs_files fs !! idPath = Some (data, mode) → data ≠ "" →
     nodeID false stateDir generated fs = (fs, (data, None)))
  ∧ (fs_files fs !! idPath = None
     ∨ (∃ mode, fs_files fs !! idPath = Some ("", mode)) →
     let fs' := (WriteFile fs idPath generated 448).1 in
     nodeID false stateDir generated fs = (fs', (generated, None))
     ∧ (∃ mode, fs_files fs' !! idPath = Some (generated, mode)
                ∧ (fs_files fs !! idPath = None → mode = 448))
     ∧ (generated ≠ "" →
        ∀ later, nodeID false stateDir later fs' = (fs', (generated, None))))
  ∧ (∀ dir, nodeID true dir generated fs = (fs, (generated, None))).
Proof.
  intros idPath Hok.
  assert (Hlen : ∀ d : string, d ≠ "" → (String.length d =? 0)%nat = false).
  { intros [|c d] Hd; [done|]. done. }
  assert (Hread : ∀ gen fs0 data mode, fs_fault fs0 idPath = None →
            fs_files fs0 !! idPath = Some (data, mode) → data ≠ "" →
            nodeID false stateDir gen fs0 = (fs0, (data, None))).
  { intros gen fs0 data mode Hf Hl Hd. unfold nodeID, ReadFile.
    fold idPath. rewrite Hf, Hl. simpl. rewrite (Hlen _ Hd). reflexivity. }
  split; [|split].
  - intros data mode Hl Hd. by apply (Hread generated fs data mode).
  - intros Hcase fs'.
    assert (Hw : WriteFile fs idPath generated 448
                 = (fs', None)).
    { subst fs'. unfold WriteFile. by rewrite Hok. }
    assert (Hfs' : ∃ mode, fs_files fs' !! idPath = Some (generated, mode)
                           ∧ (fs_files fs !! idPath = None → mode = 448)).
    { subst fs'. unfold WriteFile. rewrite Hok. simpl.
      rewrite lookup_insert_eq.
      destruct (fs_files fs !! idPath) as [[d m]|];
        (eexists; split; [reflexivity|done]). }
    split; [|split; [done|]].
    + unfold nodeID, ReadFile. fold idPath. rewrite Hok.
      destruct Hcase as [->|[mode ->]]; simpl; by rewrite Hw.
    + intros Hne later. destruct Hfs' as (mode & Hl & _).
      apply (Hread later fs' generated mode); [|done..].
      subst fs'. unfold WriteFile. by rewrite Hok.
  - done.
Qed.

(** ** Reserved ports *)

Section ReservePortsFacts.

Variable global : list Z.










End ReservePortsFacts.

(** ** Boot: what aborts [NewClient] *)

Section BootFacts.

Variable BuiltinFingerprints : list string.
Variable NewFingerprint : string → Fingerprinter + string.
Variable RestoreState : string → Allocation + string.

Lemma fingerprintLoop_app (cfg : Config) (l1 l2 : list string) (st : fpState) :
  fingerprintLoop NewFingerprint cfg (l1 ++ l2) st =
    match fingerprintLoop NewFingerprint cfg l1 st with
    | (st', FpDone) => fingerprintLoop NewFingerprint cfg l2 st'
    | r => r
    end.
Proof.
  revert st. induction l1 as [|name l1 IH]; intros st; [done|].
  simpl. destruct (_ && _); [apply IH|].
  destruct (NewFingerprint name) as [f|err]; [|done].
  destruct (Fingerprint f cfg (fp_node st)) as [[[n applies] [err|]]|];
    first [done | apply IH].
Qed.

(** C3, amended. When the one-shot [Fingerprint] of a built-in
    fingerprinter returns an error during the boot pass, [fingerprint]
    returns that error at once: it logs nothing and runs none of the
    fingerprinters that follow in the list, and [NewClient] fails with
    "fingerprinting failed". *)
Theorem fingerprint_error_aborts (env : bootEnv) (cfg cfg1 cfg2 : Config)
    (fs fs1 fs2 : FS) (before rest : list string) (name : string)
    (st : fpState) (f : Fingerprinter) (n : Node) (applies : bool)
    (err : string) :
  init env cfg fs = (cfg1, fs1, None) →
  setupNode env cfg1 fs1 = (cfg2, fs2, None) →
  BuiltinFingerprints = before ++ name :: rest →
  fingerprintLoop NewFingerprint cfg2 before (fingerprintStart cfg2)
    = (st, FpDone) →
  size (fingerprint_whitelist cfg2) = 0%nat
  ∨ name ∈ fingerprint_whitelist cfg2 →
  NewFingerprint name = inl f →
  Fingerprint f cfg2 (fp_node st) = Some (n, applies, Some err) →
  let tr := fp_trace st ++ [EvFingerprint name] in
  fingerprint BuiltinFingerprints NewFingerprint cfg2
              (default zeroNode (cfg_Node cfg2)) []
    = ({| fp_node := n; applied := applied st; skipped := skipped st;
          fp_trace := tr |}, FpError err)
  ∧ NewClient BuiltinFingerprints NewFingerprint RestoreState env cfg fs
    = BootFailed (wrapError "fingerprinting failed: " (errorString err)) tr.
Proof.
  intros Hinit Hsetup Hlist Hbefore Hwl Hnew Hfp tr.
  assert (Hloop : fingerprintLoop NewFingerprint cfg2 (name :: rest) st
                  = ({| fp_node := n; applied := applied st;
                        skipped := skipped st; fp_trace := tr |},
                     FpError err)).
  { simpl.
    assert ((negb (size (fingerprint_whitelist cfg2) =? 0)%nat
             && negb (bool_decide (name ∈ fingerprint_whitelist cfg2)))
            = false) as ->.
    { destruct Hwl as [->|Hin]; [done|].
      rewrite (bool_decide_eq_true_2 _ Hin). apply andb_false_r. }
    by rewrite Hnew, Hfp. }
  assert (Hfinger : fingerprint BuiltinFingerprints NewFingerprint cfg2
              (default zeroNode (cfg_Node cfg2)) []
            = ({| fp_node := n; applied := applied st; skipped := skipped st;
                  fp_trace := tr |}, FpError err)).
  { unfold fingerprint. rewrite Hlist, fingerprintLoop_app. simpl app.
    unfold fingerprintStart in Hbefore. by rewrite Hbefore, Hloop. }
  split; [done|].
  unfold NewClient. by rewrite Hinit, Hsetup, Hfinger.
Qed.

Lemma restoreAlloc_fold (entries : list string) (c : Client)
    (errs : list string) :
  let r := foldl (restoreAlloc RestoreState) (c, errs) entries in
  r.2 = errs ++ omap (restoreFailure RestoreState) entries
  ∧ DevMode r.1 = DevMode c
  ∧ (∀ id, is_Some (allocs c !! id) ∨ id ∈ entries → is_Some (allocs r.1 !! id))
  ∧ (∀ e, e ∈ trace c → e ∈ trace r.1)
  ∧ (∀ id, id ∈ entries →
       EvRestoreState id ∈ trace r.1
       ∧ match RestoreState id with
         | inr _ => EvLog "ERR" ("failed to restore state for alloc " +:+ id)
                    ∈ trace r.1
         | inl _ => EvRun id ∈ trace r.1
         end).
Proof.
  revert c errs. induction entries as [|id entries IH]; intros c errs; simpl.
  { rewrite app_nil_r. repeat split; try done.
    - intros id [H|H]; [done|by apply elem_of_nil in H].
    - by apply elem_of_nil in H.
    - by apply elem_of_nil in H. }
  set (s1 := restoreAlloc RestoreState (c, errs) id).
  destruct (IH s1.1 s1.2) as (Herrs & Hdev & Hall & Htr & Hev).
  rewrite <- surjective_pairing in Herrs, Hdev, Hall, Htr, Hev.
  assert (Hs1 : s1.2 = errs ++ from_option (λ e, [e]) []
                                 (restoreFailure RestoreState id)
                ∧ DevMode s1.1 = DevMode c
                ∧ (∀ k, is_Some (allocs c !! k) ∨ k = id
                        → is_Some (allocs s1.1 !! k))
                ∧ (∀ e, e ∈ trace c → e ∈ trace s1.1)
                ∧ EvRestoreState id ∈ trace s1.1
                ∧ match RestoreState id with
                  | inr _ =>
                      EvLog "ERR" ("failed to restore state for alloc " +:+ id)
                      ∈ trace s1.1
                  | inl _ => EvRun id ∈ trace s1.1
                  end).
  { subst s1. unfold restoreAlloc, restoreFailure.
    destruct (RestoreState id) as [a|e]; simpl;
      (split; [by rewrite ?app_nil_r|]); (split; [done|]);
      (split; [|split; [|split]]);
      try (intros k [Hk| ->]; [|by rewrite lookup_insert_eq];
           rewrite !lookup_insert; repeat case_decide; by eauto);
      try (intros ev Hev'); rewrite !elem_of_app, !list_elem_of_singleton;
      tauto. }
  destruct Hs1 as (H1 & H2 & H3 & H4 & H5 & H6).
  split; [|split; [|split; [|split]]].
  - rewrite Herrs, H1, <- app_assoc. f_equal.
    unfold restoreFailure. by destruct (RestoreState id).
  - by rewrite Hdev.
  - intros k [Hk|Hk]; apply Hall.
    + left. apply H3. by left.
    + apply elem_of_cons in Hk as [->|Hk]; [|by right].
      left. apply H3. by right.
  - intros e He. by apply Htr, H4.
  - intros k Hk. apply elem_of_cons in Hk as [->|Hk]; [|by apply Hev].
    split; [by apply Htr|].
    destruct (RestoreState id); by apply Htr.
Qed.

(** C7, amended. Outside dev mode, with the alloc state directory
    listed, [restoreState] builds a runner for every allocation listed and
    calls its [RestoreState]; each failure is logged and collected, in
    order, into a multi-error, and the allocations that follow are still
    restored (those that restore are run). The multi-error is what
    [restoreState] returns, and [NewClient] then fails with "failed to
    restore state"; it succeeds when no allocation fails. *)
Theorem restoreState_collects (env : bootEnv) (cfg cfg1 cfg2 : Config)
    (fs fs1 fs2 : FS) (st : fpState) (n : Node) (entries : list string) :
  init env cfg fs = (cfg1, fs1, None) →
  setupNode env cfg1 fs1 = (cfg2, fs2, None) →
  fingerprint BuiltinFingerprints NewFingerprint cfg2
              (default zeroNode (cfg_Node cfg2)) [] = (st, FpDone) →
  reservePorts (GloballyReservedPorts cfg2) (fp_node st) = Some n →
  cfg_DevMode cfg2 = false →
  ReadDir fs2 (filepath_Join (StateDir cfg2) "alloc") = (entries, None) →
  let c := {| DevMode := false; node := n; allocs := ∅;
              blockedAllocations := ∅; trace := fp_trace st |} in
  let r := restoreState RestoreState (StateDir cfg2) fs2 c in
  let errs := omap (restoreFailure RestoreState) entries in
  r.2 = ErrorOrNil errs
  ∧ (∀ id, id ∈ entries →
       is_Some (allocs r.1 !! id)
       ∧ EvRestoreState id ∈ trace r.1
       ∧ match RestoreState id with
         | inr _ => EvLog "ERR" ("failed to restore state for alloc " +:+ id)
                    ∈ trace r.1
         | inl _ => EvRun id ∈ trace r.1
         end)
  ∧ (errs ≠ [] →
     NewClient BuiltinFingerprints NewFingerprint RestoreState env cfg fs
     = BootFailed (wrapError "failed to restore state: " (multiError errs))
                  (trace r.1))
  ∧ (errs = [] →
     ∃ c', NewClient BuiltinFingerprints NewFingerprint RestoreState env cfg fs
           = Booted c' (set_Node cfg2 n) fs2).
Proof.
  intros Hinit Hsetup Hfp Hports Hdev Hdir c r errs.
  destruct (restoreAlloc_fold entries c []) as (Herrs & _ & Hall & _ & Hev).
  assert (Hr : r = ((foldl (restoreAlloc RestoreState) (c, []) entries).1,
                    ErrorOrNil errs)).
  { subst r. unfold restoreState. simpl. rewrite Hdir.
    by rewrite Herrs. }
  assert (Hboot : NewClient BuiltinFingerprints NewFingerprint RestoreState
                            env cfg fs
                  = match r with
                    | (c', Some err) =>
                        BootFailed (wrapError "failed to restore state: " err)
                                   (trace c')
                    | (c', None) =>
                        Booted (emit c' [EvGo "registerAndHeartbeat";
                                  EvGo "periodicSnapshot"; EvGo "allocSync";
                                  EvGo "run"; EvGo "collectHostStats";
                                  EvGo "rpcProxy.Run"; EvGo "gnatsd"])
                               (set_Node cfg2 n) fs2
                    end).
  { unfold NewClient. rewrite Hinit, Hsetup, Hfp, Hports. simpl.
    subst r c. by rewrite Hdev. }
  rewrite Hboot, Hr. simpl. split; [done|]. split; [|split].
  - intros id Hid. split; [apply Hall; by right|by apply Hev].
  - intros Hne. by destruct errs.
  - intros ->. by eexists.
Qed.

End BootFacts.

(** * The properties on the scenarios *)

Import Scenario.

Lemma chained_blocked_wf : blocked_wf chained.
Proof. apply startAlloc_blocked_wf. intros k b. simpl. by rewrite lookup_empty. Qed.


(** [allocB], chained to the running [allocA], is blocked; on a client that
    does not run [allocA] it is started. *)
Lemma runAllocs_chain_guard_witness :
  (allocs busy !! PreviousAllocation allocB = Some (NewAllocRunner allocA)
   ∧ clientTerminal (alloc (NewAllocRunner allocA)) = false
   ∧ blockedAllocations (startAlloc clientTerminal busy allocB)
       !! PreviousAllocation allocB = Some allocB
   ∧ allocs (startAlloc clientTerminal busy allocB) = allocs busy)
  ∧ (allocs (idle false) !! PreviousAllocation allocB = None
     ∧ allocs (startAlloc clientTerminal (idle false) allocB) !! ID allocB
       = Some (NewAllocRunner allocB)).
Proof.
  assert (H1 : allocs busy !! PreviousAllocation allocB
               = Some (NewAllocRunner allocA)) by reflexivity.
  assert (H2 : clientTerminal (alloc (NewAllocRunner allocA)) = false)
    by reflexivity.
  assert (H3 : allocs (idle false) !! PreviousAllocation allocB = None)
    by reflexivity.
  split.
  - destruct (runAllocs_chain_guard clientTerminal busy allocB) as [Hblock _].
    destruct (Hblock _ H1 H2) as (_ & Hb & Ha & _). auto.
  - destruct (runAllocs_chain_guard clientTerminal (idle false) allocB)
      as [_ Hadd].
    destruct (Hadd (or_intror (or_introl H3))) as (_ & Ha & _). auto.
Defined.

(** The terminal update of [allocA] releases [allocB], once, however often
    the update is repeated. *)
Lemma allocSync_chained_release_witness :
  let s := (allocSync_start, chained) in
  let done := status "alloc-A" "complete" in
  blocked_wf s.2
  ∧ blockedAllocations s.2 !! ID done = Some allocB
  ∧ clientTerminal done = true
  ∧ allocs (allocSync_recv clientTerminal s done).2 !! ID allocB
    = Some (NewAllocRunner allocB)
  ∧ blockedAllocations (allocSync_recv clientTerminal s done).2 !! ID done
    = None
  ∧ occurrences (EvNewAllocRunner allocB)
      (trace (allocSync clientTerminal
                [SyncUpdate done; SyncUpdate done] s).2) = 1%nat.
Proof.
  intros s done.
  assert (Hk : blockedAllocations s.2 !! ID done = Some allocB) by reflexivity.
  assert (Ht : clientTerminal done = true) by reflexivity.
  destruct (allocSync_chained_release clientTerminal s done chained_blocked_wf)
    as (Hrel & _ & Honce).
  destruct (Hrel _ Hk Ht) as (Ha & _ & _ & Hb).
  split; [exact chained_blocked_wf|]. split; [exact Hk|]. split; [exact Ht|].
  split; [rewrite Ha; apply lookup_insert_eq|]. split; [exact Hb|].
  rewrite (Honce _ _ [SyncUpdate done; SyncUpdate done] Hk). reflexivity.
Defined.



(** The stripped copy of [allocA]. *)
Lemma updateAllocStatus_stripped_witness :
  let h : gmap positive Allocation := {[ 1%positive := allocA ]} in
  h !! 1%positive = Some allocA
  ∧ ∃ q h', updateAllocStatus busy h [] false 1%positive = Some (h', [q])
            ∧ h !! q = None
            ∧ h' !! q = Some (status "alloc-A" "running")
            ∧ h' !! 1%positive = Some allocA.
Proof.
  intros h.
  assert (Hp : h !! 1%positive = Some allocA) by reflexivity.
  split; [exact Hp|].
  destruct (updateAllocStatus_stripped busy h [] false 1%positive allocA Hp)
    as (q & h' & Hcall & Hfresh & Hq & Hframe).
  exists q, h'. split; [exact Hcall|]. split; [exact Hfresh|].
  split; [exact Hq|]. rewrite Hframe; [exact Hp|]. by eexists.
Defined.

(** [Node.GetClientAllocs] answers with index 10 but the pull fails: the
    query index stays at 0. *)
Lemma watchAllocations_pull_fails_counterexample :
  getClientAllocs pullFails 0%N
    = inl {| resp_Allocs := {["alloc-A" := 7%N]}; resp_Index := 10%N |}
  ∧ (watchAllocations_iter olderThan false pullFails 0%N).1 = 0%N
  ∧ (watchAllocations_iter olderThan false pullFails 0%N).1
    ≠ N.max 0 10.
Proof. split; [reflexivity|]. split; [reflexivity|]. by vm_compute. Qed.

Lemma watchAllocations_index_witness :
  getClientAllocs pullWorks 0%N
    = inl {| resp_Allocs := {["alloc-A" := 7%N]}; resp_Index := 10%N |}
  ∧ shutdownAfterGet pullWorks = false
  ∧ (watchAllocations_iter olderThan false pullWorks 0%N).1 = 10%N
  ∧ Sorted N.le
      (0%N :: watchAllocations olderThan false [pullFails; pullWorks] 0%N).
Proof.
  destruct (watchAllocations_index olderThan false pullWorks 0%N)
    as (Hadv & _ & _ & _ & Hsorted).
  split; [reflexivity|]. split; [reflexivity|]. split.
  - rewrite (Hadv _ eq_refl eq_refl); [reflexivity|].
    right. exists [allocA]. split; reflexivity.
  - destruct (watchAllocations_index olderThan false pullFails 0%N)
      as (_ & _ & _ & _ & Hs). apply Hs.
Defined.

(** A heartbeat answered "node not found": one re-registration, two
    [Node.Register] calls until the servers accept; another error only
    backs off. *)
Lemma heartbeat_stale_or_backoff_witness :
  let stale := StatusErr "rpc: node not found" in
  let other := StatusErr "no known servers" in
  (∃ st1, updateNodeStatus stale registered
          = (st1, Some "failed to update status: rpc: node not found"))
  ∧ Exists registerEnds registerRounds
  ∧ (∃ st2 rest,
       heartbeat_fire false stale 123456789012 registerRounds registered
       = Some (st2, rest)
       ∧ occurrences EvRetryRegisterNode (hb_trace st2) = 1%nat
       ∧ 0 ≤ heartbeat st2 < 10 * Second
       ∧ rest = []
       ∧ occurrences (EvRPC "Node.Register" []) (hb_trace st2) = 2%nat
       ∧ hb_Status st2 = NodeStatusReady
       ∧ heartbeatTTL st2 = 12 * Second)
  ∧ (∃ st2,
       heartbeat_fire false other 123456789012 registerRounds registered
       = Some (st2, registerRounds)
       ∧ occurrences EvRetryRegisterNode (hb_trace st2) = 0%nat
       ∧ 15 * Second ≤ heartbeat st2 < 30 * Second).
Proof.
  intros stale other.
  assert (Hends : Exists registerEnds registerRounds).
  { apply Exists_cons_tl, Exists_cons_hd. left. by eexists. }
  split; [by eexists|]. split; [exact Hends|]. split.
  - destruct (heartbeat_stale_or_backoff false stale 123456789012
                registerRounds registered _ _ eq_refl) as (_ & Hstale & _).
    destruct (Hstale eq_refl Hends)
      as (st2 & rest & Hfire & Hre & _ & _ & _ & Hr & failed & last & evs
          & Happ & Hfailed & Hend & Hcount & _ & _ & Hlast).
    assert (Hsplit : length failed = 1%nat ∧ rest = []
                     ∧ reg_answer last = RegisterOK (12 * Second)).
    { unfold registerRounds in Happ.
      destruct failed as [|f1 [|f2 failed]]; simpl in Happ.
      - injection Happ as <- _. destruct Hend as [[ttl Hend]|Hend];
          discriminate Hend.
      - injection Happ as _ <- <-. by repeat split.
      - injection Happ as _ _ Happ. destruct failed; discriminate Happ. }
    destruct Hsplit as (Hlen & -> & Hans).
    rewrite Hans in Hlast. destruct Hlast as [Hst Httl].
    exists st2, []. split; [exact Hfire|]. split; [exact Hre|].
    split; [exact Hr|]. split; [reflexivity|].
    split; [rewrite Hcount, Hlen; reflexivity|]. split; [exact Hst|exact Httl].
  - destruct (heartbeat_stale_or_backoff false other 123456789012
                registerRounds registered _ _ eq_refl) as (_ & _ & Hother).
    destruct (Hother eq_refl) as (st2 & Hfire & Htr & _ & Hnondev & _).
    exists st2. split; [exact Hfire|]. split.
    + rewrite Htr. reflexivity.
    + apply (Hnondev eq_refl).
Defined.

(** First boot on an empty disk, then a restart. *)
Lemma nodeID_stable_witness :
  let dir := "/var/udup" in
  let fs' := (nodeID false dir someUUID emptyDisk).1 in
  fs_fault emptyDisk (filepath_Join dir "client-id") = None
  ∧ fs_files emptyDisk !! filepath_Join dir "client-id" = None
  ∧ someUUID ≠ ""
  ∧ (nodeID false dir someUUID emptyDisk).2 = (someUUID, None)
  ∧ fs_files fs' !! filepath_Join dir "client-id" = Some (someUUID, 448)
  ∧ nodeID false dir "another-uuid" fs' = (fs', (someUUID, None))
  ∧ nodeID true dir someUUID emptyDisk = (emptyDisk, (someUUID, None)).
Proof.
  intros dir fs'.
  assert (Hok : fs_fault emptyDisk (filepath_Join dir "client-id") = None)
    by reflexivity.
  assert (Habs : fs_files emptyDisk !! filepath_Join dir "client-id" = None)
    by reflexivity.
  assert (Hne : someUUID ≠ "") by discriminate.
  destruct (nodeID_stable dir someUUID emptyDisk Hok) as (_ & Hnew & Hdev).
  destruct (Hnew (or_introl Habs)) as (Hcall & (mode & Hfile & Hmode) & Hagain).
  assert (Hfs : fs' = (WriteFile emptyDisk (filepath_Join dir "client-id")
                                 someUUID 448).1).
  { subst fs'. rewrite Hcall. reflexivity. }
  split; [exact Hok|]. split; [exact Habs|]. split; [exact Hne|].
  split; [rewrite Hcall; reflexivity|]. rewrite Hfs. split.
  - rewrite Hfile, (Hmode Habs). reflexivity.
  - split; [apply (Hagain Hne)|apply Hdev].
Defined.

(** The first built-in fingerprinter fails: the client does not start, the
    second fingerprinter is not run and nothing is logged about the
    error. *)
Lemma fingerprint_error_counterexample :
  ∃ tr,
    NewClient twoBuiltins factory firstCorrupt machine devConfig emptyDisk
    = BootFailed (wrapError "fingerprinting failed: "
                            (errorString "probe failed")) tr
    ∧ (EvFingerprint "cpu" ∈ tr)
    ∧ (EvFingerprint "arch" ∉ tr)
    ∧ (∀ msg, EvLog "ERR" msg ∉ tr)
    ∧ ¬ (∃ c cfg fs,
           NewClient twoBuiltins factory firstCorrupt machine devConfig
                     emptyDisk = Booted c cfg fs).
Proof.
  eexists. split; [vm_compute; reflexivity|].
  split; [by right; left|]. split; [|split].
  - intros H. by repeat (apply elem_of_cons in H as [H|H]; [done|]);
      apply elem_of_nil in H.
  - intros msg H. by repeat (apply elem_of_cons in H as [H|H]; [done|]);
      apply elem_of_nil in H.
  - intros (c & cfg & fs & H). vm_compute in H. discriminate.
Qed.

Lemma fingerprint_error_aborts_witness :
  twoBuiltins = [] ++ "cpu" :: ["arch"]
  ∧ factory "cpu" = inl failing
  ∧ NewClient twoBuiltins factory firstCorrupt machine devConfig emptyDisk
    = BootFailed (wrapError "fingerprinting failed: "
                            (errorString "probe failed"))
                 [EvLog "DEBUG" "built-in fingerprints"; EvFingerprint "cpu"].
Proof.
  split; [reflexivity|]. split; [reflexivity|].
  refine (proj2 (fingerprint_error_aborts twoBuiltins factory firstCorrupt
            machine devConfig _ _ emptyDisk _ _ [] ["arch"] "cpu"
            _ failing _ false "probe failed" eq_refl eq_refl eq_refl eq_refl
            (or_introl eq_refl) eq_refl eq_refl)).
Defined.

(** One of two allocations does not restore: the other is restored and
    run, and the client does not start. *)
Lemma restoreState_abort_counterexample :
  ∃ tr,
    NewClient archOnly factory firstCorrupt machine warmConfig warmDisk
    = BootFailed (wrapError "failed to restore state: "
                            (multiError ["snapshot unreadable"])) tr
    ∧ (EvRun "alloc-2" ∈ tr)
    ∧ ¬ (∃ c cfg fs,
           NewClient archOnly factory firstCorrupt machine warmConfig warmDisk
           = Booted c cfg fs).
Proof.
  eexists. split; [vm_compute; reflexivity|]. split.
  - apply list_elem_of_In. vm_compute. tauto.
  - intros (c & cfg & fs & H). vm_compute in H. discriminate.
Qed.

Lemma restoreState_collects_witness :
  cfg_DevMode warmConfig = false
  ∧ ReadDir warmDisk (filepath_Join (StateDir warmConfig) "alloc")
    = (["alloc-1"; "alloc-2"], None)
  ∧ omap (restoreFailure firstCorrupt) ["alloc-1"; "alloc-2"]
    = ["snapshot unreadable"]
  ∧ ∃ tr,
      NewClient archOnly factory firstCorrupt machine warmConfig warmDisk
      = BootFailed (wrapError "failed to restore state: "
                              (multiError ["snapshot unreadable"])) tr.
Proof.
  split; [reflexivity|]. split; [reflexivity|]. split; [reflexivity|].
  eexists.
  refine (proj1 (proj2 (proj2 (restoreState_collects archOnly factory
            firstCorrupt machine warmConfig _ _ warmDisk _ _ _ _
            ["alloc-1"; "alloc-2"]
            eq_refl eq_refl eq_refl eq_refl eq_refl eq_refl))) _).
  discriminate.
Defined.


